(** * OBS background filter: security gate, mask post-processing, compositing

    A shallow embedding of the plugin's C++ sources

    - [src/security-utils.cpp]   (namespace [Security])
    - [src/model-inference.cpp]  (class [ModelInference])
    - [src/background-filter.cpp] (the per-frame filter callbacks)

    together with the properties stated about them.

    Conventions.
    - C++ [float] is IEEE-754 binary32, represented by [spec_float] with
      precision 24 and [emax] 128; comparisons and arithmetic are the ones of
      [SpecFloat] (round to nearest, ties to even).
    - The file system, OpenSSL, ONNX Runtime and OpenCV's image routines are the
      environment: they appear as records or section variables.
    - Code that can raise a C++ exception returns [result]; the calls made to
      the file system are recorded, in order, in a trace.
    - [blog] diagnostics do not influence any result and are left out. *)

From Stdlib Require Import ZArith NArith List String Ascii Bool Lia.
From Stdlib Require Import Floats.SpecFloat.
From Stdlib Require Strings.Byte.
Import ListNotations.

Local Open Scope string_scope.
Local Open Scope list_scope.

(* ================================================================== *)
(** ** Exceptions and the trace of file-system calls *)

Inductive result (A : Type) : Type :=
| Ok (a : A)
| Throw.
Arguments Ok {A} a.
Arguments Throw {A}.

(** The calls of [std::filesystem] and [std::ifstream] the code performs. *)
Inductive fs_event : Type :=
| EvAbsolute (p : string)
| EvWeaklyCanonical (p : string)
| EvExists (p : string)
| EvIsRegularFile (p : string)
| EvFileSize (p : string)
| EvOpenRead (p : string).

Definition trace := list fs_event.

(** A computation that may throw and that extends the trace. *)
Definition IO (A : Type) : Type := trace -> result A * trace.

Definition ret {A} (a : A) : IO A := fun tr => (Ok a, tr).

Definition bind {A B} (m : IO A) (k : A -> IO B) : IO B :=
  fun tr =>
    match m tr with
    | (Ok a, tr') => k a tr'
    | (Throw, tr') => (Throw, tr')
    end.

(** [try { body } catch (const std::exception &) { handler }] *)
Definition try_catch {A} (body handler : IO A) : IO A :=
  fun tr =>
    match body tr with
    | (Ok a, tr') => (Ok a, tr')
    | (Throw, tr') => handler tr'
    end.

(** One call to the environment: its outcome, and the event it leaves. *)
Definition call {A} (ev : fs_event) (r : result A) : IO A :=
  fun tr => (r, tr ++ [ev]).

Declare Scope io_scope.
Delimit Scope io_scope with io.
Notation "x <- m ;; k" := (bind m (fun x => k))
  (at level 61, m at next level, right associativity) : io_scope.
Local Open Scope io_scope.

(** Result and trace of a computation started on the empty trace. *)
Definition run {A} (m : IO A) : result A * trace := m [].

(* ================================================================== *)
(** ** Strings *)

(** [s.find(needle) != std::string::npos] *)
Fixpoint str_contains (needle s : string) : bool :=
  if String.prefix needle s then true
  else match s with
       | EmptyString => false
       | String _ s' => str_contains needle s'
       end.

(** [s.empty()] *)
Definition str_empty (s : string) : bool :=
  match s with EmptyString => true | _ => false end.

(** [::tolower] in the C locale. *)
Definition tolower (c : ascii) : ascii :=
  let n := N_of_ascii c in
  if ((65 <=? n) && (n <=? 90))%N then ascii_of_N (n + 32) else c.

(** [std::transform(s.begin(), s.end(), s.begin(), ::tolower)] *)
Fixpoint str_tolower (s : string) : string :=
  match s with
  | EmptyString => EmptyString
  | String c s' => String (tolower c) (str_tolower s')
  end.

(* ================================================================== *)
(** ** Paths

    A canonical absolute path is the list of its file names after the root
    directory; [fs::path::string()] joins them with the separator. *)

Definition path := list string.

Fixpoint path_string (p : path) : string :=
  match p with
  | [] => ""
  | [c] => c
  | c :: rest => (c ++ "/" ++ path_string rest)%string
  end.

(** [p.empty()] *)
Definition path_empty (p : path) : bool := str_empty (path_string p).

Definition is_dot (c : string) : bool := String.eqb c ".".
Definition is_dotdot (c : string) : bool := String.eqb c "..".

(** A file name that is neither empty, nor dot, nor dot-dot. *)
Definition normal_component (c : string) : bool :=
  negb (str_empty c) && negb (is_dot c) && negb (is_dotdot c).

(** [std::mismatch(begin(), end(), base.begin(), base.end())] *)
Fixpoint mismatch (p base : path) : path * path :=
  match p, base with
  | a :: p', b :: base' =>
      if String.eqb a b then mismatch p' base' else (p, base)
  | _, _ => (p, base)
  end.

Definition count_if (f : string -> bool) (p : path) : Z :=
  Z.of_nat (List.length (List.filter f p)).

(** [fs::path::lexically_relative], [fs.path.gen], for two absolute paths
    with the same root (the only case [fs::relative] produces here). *)
Definition lexically_relative (p base : path) : path :=
  let '(a, b) := mismatch p base in
  match a, b with
  | [], [] => ["."]
  | _, _ =>
      let n := (count_if normal_component b - count_if is_dotdot b)%Z in
      if (n <? 0)%Z then []
      else if (n =? 0)%Z &&
              match a with [] => true | c :: _ => str_empty c end
           then ["."]
           else List.repeat ".." (Z.to_nat n) ++ a
  end.

(** [base] is a prefix of [p], component by component. *)
Fixpoint is_prefix (base p : path) : bool :=
  match base, p with
  | [], _ => true
  | b :: base', a :: p' => String.eqb b a && is_prefix base' p'
  | _ :: _, [] => false
  end.

(* ================================================================== *)
(** ** The file system *)

Record FileSystem : Type := {
  (** [fs::absolute(p)]; throws on an empty path or when the current
      directory cannot be read *)
  fs_absolute : string -> result string;
  (** [fs::weakly_canonical(p)] of an absolute path: symbolic links resolved,
      dot and dot-dot removed; the file names after the root *)
  fs_weakly_canonical : string -> result path;
  fs_exists : string -> result bool;
  fs_is_regular_file : string -> result bool;
  (** [fs::file_size], a [uintmax_t] *)
  fs_file_size : string -> result N;
  (** the bytes [std::ifstream] delivers, [None] when the file cannot be
      opened *)
  fs_contents : string -> option (list Byte.byte)
}.

(** What [weakly_canonical] guarantees about its result. *)
Definition canonical_normal (fs : FileSystem) : Prop :=
  forall a l, fs_weakly_canonical fs a = Ok l ->
              forallb normal_component l = true.

(** [filepath] resolves to the canonical path [l]. *)
Definition resolves (fs : FileSystem) (filepath : string) (l : path) : Prop :=
  exists a, fs_absolute fs filepath = Ok a /\ fs_weakly_canonical fs a = Ok l.

(** OpenSSL's incremental SHA-256. *)
Record OpenSSL : Type := {
  SHA256_CTX : Type;
  SHA256_Init : SHA256_CTX;
  SHA256_Update : SHA256_CTX -> list Byte.byte -> SHA256_CTX;
  (** the digest, [SHA256_DIGEST_LENGTH] bytes *)
  SHA256_Final : SHA256_CTX -> list Byte.byte
}.

Definition SHA256_DIGEST_LENGTH : nat := 32.

(* ================================================================== *)
(** ** Numbers *)

(** C++ [float]: IEEE-754 binary32. *)
Definition float := spec_float.
Definition prec32 : Z := 24.
Definition emax32 : Z := 128.

Definition f_zero : float := S754_zero false.            (* 0.0f *)
Definition f_one : float := S754_finite false 8388608 (-23).   (* 1.0f *)
Definition f_half : float := S754_finite false 8388608 (-24).  (* 0.5f *)
Definition f_nan : float := S754_nan.

Definition f_lt (x y : float) : bool := SFltb x y.       (* x < y *)
Definition f_gt (x y : float) : bool := SFltb y x.       (* x > y *)
Definition f_le (x y : float) : bool := SFleb x y.       (* x <= y *)
Definition f_neg (x : float) : float := SFopp x.
Definition f_add (x y : float) : float := SFadd prec32 emax32 x y.
Definition f_sub (x y : float) : float := SFsub prec32 emax32 x y.
Definition f_mul (x y : float) : float := SFmul prec32 emax32 x y.
Definition f_div (x y : float) : float := SFdiv prec32 emax32 x y.

(** Conversion of an [int] to [float]. *)
Definition float_of_int (z : Z) : float :=
  binary_normalize prec32 emax32 z 0 false.

(** [(float)d] for a [double] [d]. *)
Definition float_of_double (d : spec_float) : float :=
  match d with
  | S754_finite s m e => binary_round prec32 emax32 s m e
  | _ => d
  end.

(** [(int)v] for a [long long] [v] (two's complement wrap-around). *)
Definition int_of_long_long (v : Z) : Z :=
  ((v + 2 ^ 31) mod 2 ^ 32 - 2 ^ 31)%Z.

(** [(uint32_t)v] *)
Definition uint32_of_long_long (v : Z) : Z := (v mod 2 ^ 32)%Z.

Definition INT_MIN : Z := (- 2 ^ 31)%Z.
Definition INT_MAX : Z := (2 ^ 31 - 1)%Z.

(** The integer nearest to [m * 2^e], ties to the even one. *)
Definition round_half_even (m : positive) (e : Z) : Z :=
  match e with
  | Zneg k =>
      let d := Z.pow_pos 2 k in
      let q := (Zpos m / d)%Z in
      let r := (Zpos m mod d)%Z in
      match (2 * r ?= d)%Z with
      | Lt => q
      | Gt => (q + 1)%Z
      | Eq => if Z.even q then q else (q + 1)%Z
      end
  | _ => (Zpos m * 2 ^ e)%Z
  end.

(** [cvRound(float)]: the SSE conversion [_mm_cvtss_si32], which yields
    [INT_MIN] for NaN, the infinities and values outside [int]. *)
Definition cvRound (v : float) : Z :=
  match v with
  | S754_zero _ => 0%Z
  | S754_finite s m e =>
      let r := cond_Zopp s (round_half_even m e) in
      if ((INT_MIN <=? r) && (r <=? INT_MAX))%Z then r else INT_MIN
  | S754_infinity _ | S754_nan => INT_MIN
  end.

Definition uchar := Byte.byte.

Definition int_of_uchar (b : uchar) : Z := Z.of_N (Byte.to_N b).

(** [(uchar)v] for [0 <= v <= 255]. *)
Definition uchar_of_int (v : Z) : uchar :=
  match Byte.of_N (Z.to_N v) with
  | Some b => b
  | None => Byte.x00
  end.

(** [cv::saturate_cast<uchar>(int)] *)
Definition saturate_cast_uchar (v : Z) : uchar :=
  if ((0 <=? v) && (v <=? 255))%Z then uchar_of_int v
  else if (0 <? v)%Z then uchar_of_int 255 else uchar_of_int 0.

(** [cv::saturate_cast<uchar>(float)] *)
Definition saturate_cast_uchar_f (v : float) : uchar :=
  saturate_cast_uchar (cvRound v).

(* ================================================================== *)
(** ** [namespace Security] *)

Module Security.

(** *** [ValidateConfigValues] *)
Definition ValidateConfigValues (threshold : float)
           (blur_amount edge_smoothing : Z) : bool :=
  if f_lt threshold f_zero || f_gt threshold f_one then false
  else if ((blur_amount <? 1) || (50 <? blur_amount))%Z then false
  else if ((edge_smoothing <? 1) || (10 <? edge_smoothing))%Z then false
  else true.

Section WithEnvironment.

Variable fs : FileSystem.
Variable ssl : OpenSSL.

Definition absolute (p : string) : IO string :=
  call (EvAbsolute p) (fs_absolute fs p).

Definition weakly_canonical (p : string) : IO path :=
  call (EvWeaklyCanonical p) (fs_weakly_canonical fs p).

(** [fs::relative(p, base)] is
    [weakly_canonical(p).lexically_relative(weakly_canonical(base))]. *)
Definition relative (p base : string) : IO path :=
  cp <- weakly_canonical p ;;
  cb <- weakly_canonical base ;;
  ret (lexically_relative cp cb).

Definition exists_ (p : string) : IO bool :=
  call (EvExists p) (fs_exists fs p).

Definition is_regular_file (p : string) : IO bool :=
  call (EvIsRegularFile p) (fs_is_regular_file fs p).

Definition file_size (p : string) : IO N :=
  call (EvFileSize p) (fs_file_size fs p).

(** Opening a [std::ifstream] does not throw. *)
Definition open_read (p : string) : IO (option (list Byte.byte)) :=
  call (EvOpenRead p) (Ok (fs_contents fs p)).

(* ---------------------------------------------------------------- *)
(** *** [CalculateFileSHA256] *)

#[local] Set Warnings "-abstract-large-number".
Definition buffer_size : nat := 8192.
#[local] Set Warnings "+abstract-large-number".

(** [while (file.read(buffer, buffer_size) || file.gcount() > 0)
       SHA256_Update(&sha256, buffer, file.gcount());]
    Every round consumes at least one byte, so [fuel] above the length of the
    stream is never exhausted. *)
Fixpoint read_loop (fuel : nat) (ctx : SHA256_CTX ssl)
                   (stream : list Byte.byte) : SHA256_CTX ssl :=
  match fuel with
  | O => ctx
  | S fuel' =>
      match firstn buffer_size stream with
      | [] => ctx
      | chunk =>
          read_loop fuel' (SHA256_Update ssl ctx chunk)
                    (skipn buffer_size stream)
      end
  end.

Definition hex_digit (n : N) : ascii :=
  if (n <? 10)%N then ascii_of_N (48 + n) else ascii_of_N (87 + n).

(** [ss << std::hex << std::setw(2) << std::setfill('0') << int(b)] *)
Definition hex_byte (b : Byte.byte) : string :=
  let n := Byte.to_N b in
  String (hex_digit (n / 16)) (String (hex_digit (n mod 16)) EmptyString).

(** The loop over [i < SHA256_DIGEST_LENGTH] reading [hash[i]]. *)
Definition hex_digest (hash : list Byte.byte) : string :=
  List.fold_right
    (fun i acc => (hex_byte (List.nth i hash Byte.x00) ++ acc)%string)
    "" (List.seq 0 SHA256_DIGEST_LENGTH).

Definition CalculateFileSHA256 (filepath : string) : IO string :=
  try_catch
    (file <- open_read filepath ;;
     match file with
     | None => ret ""
     | Some content =>
         let sha256 :=
           read_loop (S (List.length content)) (SHA256_Init ssl) content in
         ret (hex_digest (SHA256_Final ssl sha256))
     end)
    (ret "").

(* ---------------------------------------------------------------- *)
(** *** [VerifyFileChecksum] *)

Definition VerifyFileChecksum (filepath expected_hash : string) : IO bool :=
  if str_empty expected_hash then ret true
  else
    calculated_hash <- CalculateFileSHA256 filepath ;;
    if str_empty calculated_hash then ret false
    else
      let expected_lower := str_tolower expected_hash in
      let calculated_lower := str_tolower calculated_hash in
      if negb (String.eqb expected_lower calculated_lower) then ret false
      else ret true.

(* ---------------------------------------------------------------- *)
(** *** [ValidatePath] *)

(** The [for] loop over [allowed_base_paths]. *)
Fixpoint ValidatePath_loop (abs_path : string)
         (allowed_base_paths : list string) : IO bool :=
  match allowed_base_paths with
  | [] => ret false
  | allowed_base :: rest =>
      allowed_abs <- absolute allowed_base ;;
      rel <- relative abs_path allowed_abs ;;
      if negb (path_empty rel) && negb (str_contains ".." (path_string rel))
      then ret true
      else ValidatePath_loop abs_path rest
  end.

Definition ValidatePath (filepath : string)
           (allowed_base_paths : list string) : IO bool :=
  try_catch
    (if str_contains ".." filepath then ret false
     else
       abs_path <- absolute filepath ;;
       ValidatePath_loop abs_path allowed_base_paths)
    (ret false).

(* ---------------------------------------------------------------- *)
(** *** [IsPathInDirectory] *)

Definition IsPathInDirectory (filepath allowed_dir : string) : IO bool :=
  try_catch
    (file_abs <- absolute filepath ;;
     dir_abs <- absolute allowed_dir ;;
     rel <- relative file_abs dir_abs ;;
     ret (negb (path_empty rel) &&
          negb (str_contains ".." (path_string rel))))
    (ret false).

(* ---------------------------------------------------------------- *)
(** *** [VerifyModelIntegrity] *)

(** [500 * 1024 * 1024] *)
Definition max_size : N := 500 * 1024 * 1024.

(** The extension test only logs a warning, so it leaves no mark here. *)
Definition VerifyModelIntegrity (model_path expected_hash : string)
  : IO bool :=
  ex <- exists_ model_path ;;
  if negb ex then ret false
  else
    reg <- is_regular_file model_path ;;
    if negb reg then ret false
    else
      size <- file_size model_path ;;
      if (max_size <? size)%N then ret false
      else
        if negb (str_empty expected_hash) then
          ok <- VerifyFileChecksum model_path expected_hash ;;
          if negb ok then ret false else ret true
        else ret true.

(* ---------------------------------------------------------------- *)
(** *** The gate

    [ModelInference::LoadModel] runs [ValidatePath] and then
    [VerifyModelIntegrity] inside its [try] block and refuses to load when
    either returns [false] or throws.  [authorize] is that sequence, for an
    allow-list and an expected hash ([LoadModel] passes the empty hash). *)
Definition authorize (model_path : string) (allowed_dirs : list string)
           (expected_hash : string) : IO bool :=
  try_catch
    (valid <- ValidatePath model_path allowed_dirs ;;
     if negb valid then ret false
     else
       intact <- VerifyModelIntegrity model_path expected_hash ;;
       if negb intact then ret false else ret true)
    (ret false).

End WithEnvironment.

End Security.

(* ================================================================== *)
(** ** Images *)

(** [cv::Mat]: [rows], [cols] and the elements in row-major order. *)
Record Mat (A : Type) : Type := mkMat {
  rows : nat;
  cols : nat;
  data : list A
}.
Arguments mkMat {A} rows cols data.
Arguments rows {A} m.
Arguments cols {A} m.
Arguments data {A} m.

(** [m.at<A>(y, x)] *)
Definition mat_at {A} (d : A) (m : Mat A) (y x : nat) : A :=
  List.nth (y * cols m + x) (data m) d.

(** The two nested loops [for y < rows) for (x < cols)] that assign
    [f y x] to element [(y, x)]. *)
Definition mat_fill {A} (r c : nat) (f : nat -> nat -> A) : Mat A :=
  mkMat r c
    (List.flat_map (fun y => List.map (fun x => f y x) (List.seq 0 c))
                   (List.seq 0 r)).

(** [cv::Mat::ones(rows, cols, CV_32FC1)] *)
Definition mat_ones (r c : nat) : Mat float :=
  mkMat r c (List.repeat f_one (r * c)).

(** [cv::Vec3b], in B, G, R order. *)
Definition Vec3b : Type := uchar * uchar * uchar.

Definition black : Vec3b := (Byte.x00, Byte.x00, Byte.x00).

(** [v * alpha]: every channel is [saturate_cast<uchar>(v[i] * alpha)]. *)
Definition vec_scale (v : Vec3b) (alpha : float) : Vec3b :=
  let '(b, g, r) := v in
  (saturate_cast_uchar_f (f_mul (float_of_int (int_of_uchar b)) alpha),
   saturate_cast_uchar_f (f_mul (float_of_int (int_of_uchar g)) alpha),
   saturate_cast_uchar_f (f_mul (float_of_int (int_of_uchar r)) alpha)).

(** [v + w]: every channel is [saturate_cast<uchar>(v[i] + w[i])]. *)
Definition vec_add (v w : Vec3b) : Vec3b :=
  let '(b1, g1, r1) := v in
  let '(b2, g2, r2) := w in
  (saturate_cast_uchar (int_of_uchar b1 + int_of_uchar b2),
   saturate_cast_uchar (int_of_uchar g1 + int_of_uchar g2),
   saturate_cast_uchar (int_of_uchar r1 + int_of_uchar r2)).

(** [fg * alpha + bg * (1.0f - alpha)] *)
Definition blend (fg bg : Vec3b) (alpha : float) : Vec3b :=
  vec_add (vec_scale fg alpha) (vec_scale bg (f_sub f_one alpha)).

(* ================================================================== *)
(** ** [class ModelInference] *)

(** A created [Ort::Session], through the queries [LoadModel] makes; each
    of them can throw. *)
Record Session : Type := {
  (** [GetInputCount()] *)
  GetInputCount : result nat;
  (** [GetInputName(0, allocator)] *)
  GetInputName : result string;
  (** [GetInputTypeInfo(0).GetTensorTypeAndShapeInfo().GetShape()] *)
  GetInputShape : result (list Z);
  (** [GetOutputCount()] *)
  GetOutputCount : result nat;
  (** [GetOutputName(0, allocator)] *)
  GetOutputName : result string;
  (** [GetOutputTypeInfo(0).GetTensorTypeAndShapeInfo().GetShape()] *)
  GetOutputShape : result (list Z)
}.

(** A raw output tensor: its data and its height and width. *)
Record raw_output : Type := {
  output_data : list float;
  output_height : nat;
  output_width : nat
}.

Record ModelInference : Type := mkModelInference {
  model_loaded_ : bool;
  (** [session_] is not null *)
  has_session : bool;
  input_height_ : Z;
  input_width_ : Z;
  input_names_ : list string;
  output_names_ : list string;
  input_shape_ : list Z;
  output_shape_ : list Z
}.

(** The environment of the inference engine. *)
Record Runtime : Type := {
  (** the build has [HAVE_ONNXRUNTIME] *)
  HAVE_ONNXRUNTIME : bool;
  (** [getenv("HOME")] *)
  env_HOME : option string;
  (** [session_options_->SetGraphOptimizationLevel(ORT_ENABLE_BASIC)] and
      the constructor of [Ort::Session] for a model path, which reads the
      file ([None]: it cannot be opened); throws when the bytes are not a
      usable model *)
  ort_create_session : string -> option (list Byte.byte) -> result Session;
  (** [Preprocess], the packing into a planar tensor and
      [Ort::Session::Run], up to the raw output tensor; throws on any
      failure *)
  ort_infer : ModelInference -> Mat Vec3b -> result raw_output;
  (** [std::exp] on [float] *)
  expf : float -> float;
  (** [cv::resize(src, dst, cv::Size(width, height), 0, 0, INTER_LINEAR)] *)
  cv_resize : Mat float -> nat -> nat -> result (Mat float)
}.

Module Inference.

(** The constructor. *)
Definition new : ModelInference :=
  mkModelInference false false 320 320 [] [] [] [].

Definition models_suffix : string :=
  "/.config/obs-studio/plugins/obs-background-filter/data/models".
Definition data_suffix : string :=
  "/.config/obs-studio/plugins/obs-background-filter/data".

(** The allow-list [LoadModel] builds. *)
Definition allowed_dirs (home : option string) : list string :=
  match home with
  | Some h => [(h ++ models_suffix)%string; (h ++ data_suffix)%string]
  | None => []
  end ++
  ["/usr/share/obs/obs-plugins/obs-background-filter/models";
   "/usr/local/share/obs/obs-plugins/obs-background-filter/models"].

Section WithRuntime.

Variable fs : FileSystem.
Variable ssl : OpenSSL.
Variable rt : Runtime.

(** [session_ = std::make_unique<Ort::Session>(...)] has succeeded. *)
Definition with_session (mi : ModelInference) : ModelInference :=
  mkModelInference (model_loaded_ mi) true (input_height_ mi)
    (input_width_ mi) (input_names_ mi) (output_names_ mi)
    (input_shape_ mi) (output_shape_ mi).

(** [input_names_.push_back(name)] *)
Definition push_input_name (name : string) (mi : ModelInference)
  : ModelInference :=
  mkModelInference (model_loaded_ mi) (has_session mi) (input_height_ mi)
    (input_width_ mi) (input_names_ mi ++ [name]) (output_names_ mi)
    (input_shape_ mi) (output_shape_ mi).

(** [input_shape_ = shape], and the height and width taken from it when it
    has four dimensions or more. *)
Definition set_input_shape (shape : list Z) (mi : ModelInference)
  : ModelInference :=
  let four := Nat.leb 4 (List.length shape) in
  mkModelInference (model_loaded_ mi) (has_session mi)
    (if four then int_of_long_long (List.nth 2 shape 0%Z)
     else input_height_ mi)
    (if four then int_of_long_long (List.nth 3 shape 0%Z)
     else input_width_ mi)
    (input_names_ mi) (output_names_ mi) shape (output_shape_ mi).

(** [output_names_.push_back(name)] *)
Definition push_output_name (name : string) (mi : ModelInference)
  : ModelInference :=
  mkModelInference (model_loaded_ mi) (has_session mi) (input_height_ mi)
    (input_width_ mi) (input_names_ mi) (output_names_ mi ++ [name])
    (input_shape_ mi) (output_shape_ mi).

(** [output_shape_ = shape] *)
Definition set_output_shape (shape : list Z) (mi : ModelInference)
  : ModelInference :=
  mkModelInference (model_loaded_ mi) (has_session mi) (input_height_ mi)
    (input_width_ mi) (input_names_ mi) (output_names_ mi)
    (input_shape_ mi) shape.

(** [model_loaded_ = true] *)
Definition set_model_loaded (mi : ModelInference) : ModelInference :=
  mkModelInference true (has_session mi) (input_height_ mi)
    (input_width_ mi) (input_names_ mi) (output_names_ mi)
    (input_shape_ mi) (output_shape_ mi).

(** The block "Input info" of [LoadModel]: whether it ran to its end, and
    the object as it is then, or as it was when a query threw. *)
Definition describe_inputs (session : Session) (mi : ModelInference)
  : bool * ModelInference :=
  match GetInputCount session with
  | Throw => (false, mi)
  | Ok num_input_nodes =>
      if Nat.ltb 0 num_input_nodes then
        match GetInputName session with
        | Throw => (false, mi)
        | Ok name =>
            let mi := push_input_name name mi in
            match GetInputShape session with
            | Throw => (false, mi)
            | Ok shape => (true, set_input_shape shape mi)
            end
        end
      else (true, mi)
  end.

(** The block "Output info" of [LoadModel]. *)
Definition describe_outputs (session : Session) (mi : ModelInference)
  : bool * ModelInference :=
  match GetOutputCount session with
  | Throw => (false, mi)
  | Ok num_output_nodes =>
      if Nat.ltb 0 num_output_nodes then
        match GetOutputName session with
        | Throw => (false, mi)
        | Ok name =>
            let mi := push_output_name name mi in
            match GetOutputShape session with
            | Throw => (false, mi)
            | Ok shape => (true, set_output_shape shape mi)
            end
        end
      else (true, mi)
  end.

(** [LoadModel] from the creation of the session on, for the bytes the
    model file holds: the value returned and the object afterwards.  An
    exception is caught at the end of [LoadModel]; the object then keeps
    what was assigned before the exception. *)
Definition open_session (model_path : string)
           (content : option (list Byte.byte)) (mi : ModelInference)
  : bool * ModelInference :=
  match ort_create_session rt model_path content with
  | Throw => (false, mi)
  | Ok session =>
      let mi := with_session mi in
      let '(described, mi) := describe_inputs session mi in
      if negb described then (false, mi)
      else
        let '(described, mi) := describe_outputs session mi in
        if negb described then (false, mi)
        else (true, set_model_loaded mi)
  end.

(** [LoadModel]: the value returned and the object afterwards.  The file
    is opened for reading by the constructor of the session, after both
    checks. *)
Definition LoadModel (mi : ModelInference) (model_path : string)
  : IO (bool * ModelInference) :=
  if HAVE_ONNXRUNTIME rt then
    try_catch
      (valid <- Security.ValidatePath fs model_path
                  (allowed_dirs (env_HOME rt)) ;;
       if negb valid then ret (false, mi)
       else
         intact <- Security.VerifyModelIntegrity fs ssl model_path "" ;;
         if negb intact then ret (false, mi)
         else
           content <- Security.open_read fs model_path ;;
           ret (open_session model_path content mi))
      (ret (false, mi))
  else ret (false, mi).

(** The sigmoid of [Postprocess]:
    [1.0f / (1.0f + std::exp(-value))]. *)
Definition sigmoid (value : float) : float :=
  f_div f_one (f_add f_one (expf rt (f_neg value))).

(** The threshold of [Postprocess]:
    [value > threshold ? value : 0.0f]. *)
Definition apply_threshold (threshold value : float) : float :=
  if f_gt value threshold then value else f_zero.

(** The loop of [Postprocess] over [i < output_height * output_width]. *)
Definition sigmoid_threshold (output : list float) (n : nat)
           (threshold : float) : list float :=
  List.map
    (fun i => apply_threshold threshold (sigmoid (List.nth i output f_zero)))
    (List.seq 0 n).

Definition Postprocess (output : list float) (oh ow : nat)
           (target_height target_width : nat) (threshold : float)
  : result (Mat float) :=
  let mask := mkMat oh ow (sigmoid_threshold output (oh * ow) threshold) in
  cv_resize rt mask target_width target_height.

(** [RunInference]: [Some mask] when it returns [true]. *)
Definition RunInference (mi : ModelInference) (input_frame : Mat Vec3b)
           (threshold : float) : option (Mat float) :=
  if HAVE_ONNXRUNTIME rt then
    if negb (model_loaded_ mi) || negb (has_session mi) then None
    else
      match ort_infer rt mi input_frame with
      | Throw => None
      | Ok raw =>
          match Postprocess (output_data raw) (output_height raw)
                  (output_width raw) (rows input_frame) (cols input_frame)
                  threshold with
          | Throw => None
          | Ok output_mask => Some output_mask
          end
      end
  else Some (mat_ones (rows input_frame) (cols input_frame)).

End WithRuntime.

End Inference.

(* ================================================================== *)
(** ** The filter callbacks ([background-filter.cpp]) *)

(** libobs' [enum video_format]; the filter names three of its members. *)
Inductive video_format : Type :=
| VIDEO_FORMAT_NONE
| VIDEO_FORMAT_I420
| VIDEO_FORMAT_NV12
| VIDEO_FORMAT_YVYU
| VIDEO_FORMAT_YUY2
| VIDEO_FORMAT_UYVY
| VIDEO_FORMAT_RGBA
| VIDEO_FORMAT_BGRA
| VIDEO_FORMAT_BGRX
| VIDEO_FORMAT_Y800
| VIDEO_FORMAT_I444
| VIDEO_FORMAT_other (tag : nat).

(** [struct obs_source_frame], as far as the filter uses it. *)
Record obs_source_frame : Type := mkFrame {
  frame_data0 : list uchar;       (* the buffer behind [data[0]] *)
  frame_width : Z;
  frame_height : Z;
  frame_format : video_format
}.

(** The settings object, through the keys [background_filter_update]
    reads. *)
Record obs_data : Type := mkSettings {
  s_threshold : spec_float;        (* a [double] *)
  s_blur_background : bool;
  s_blur_amount : Z;               (* a [long long] *)
  s_replace_background : bool;
  s_replacement_color : Z;
  s_smooth_edges : bool;
  s_edge_smoothing : Z
}.

(** [struct background_filter_data] *)
Record background_filter_data : Type := mkFilter {
  inference : ModelInference;
  threshold : float;
  blur_background : bool;
  blur_amount : Z;
  replace_background : bool;
  replacement_color : Z;
  smooth_edges : bool;
  edge_smoothing : Z;
  width : Z;
  height : Z;
  last_process_time : Z;
  model_loaded : bool;
  processing : bool
}.

Definition set_processing (b : bool) (f : background_filter_data)
  : background_filter_data :=
  mkFilter (inference f) (threshold f) (blur_background f) (blur_amount f)
           (replace_background f) (replacement_color f) (smooth_edges f)
           (edge_smoothing f) (width f) (height f) (last_process_time f)
           (model_loaded f) b.

Definition set_dimensions (w h : Z) (f : background_filter_data)
  : background_filter_data :=
  mkFilter (inference f) (threshold f) (blur_background f) (blur_amount f)
           (replace_background f) (replacement_color f) (smooth_edges f)
           (edge_smoothing f) w h (last_process_time f)
           (model_loaded f) (processing f).

Inductive ColorConversionCode : Type :=
| COLOR_YUV2BGR_I420
| COLOR_YUV2BGR_NV12
| COLOR_RGBA2BGR
| COLOR_BGR2YUV_I420
| COLOR_BGR2YUV_NV12
| COLOR_BGR2RGBA.

(** OpenCV's image routines. *)
Record OpenCV : Type := {
  (** [cv::cvtColor] from a byte buffer of [rows] by [cols] elements *)
  cvtColor_in : ColorConversionCode -> Z -> Z -> list uchar ->
                result (Mat Vec3b);
  (** [cv::cvtColor] of a BGR image; the bytes of the resulting matrix *)
  cvtColor_out : ColorConversionCode -> Mat Vec3b -> result (list uchar);
  (** [cv::GaussianBlur(m, m, cv::Size(k, k), 0)] *)
  GaussianBlur_mask : Mat float -> Z -> result (Mat float);
  GaussianBlur_bgr : Mat Vec3b -> Z -> result (Mat Vec3b)
}.

(** [memcpy(dst, src, n)] with [n] the length of [src]. *)
Definition memcpy (dst src : list uchar) : list uchar :=
  src ++ List.skipn (List.length src) dst.

Module Filter.

(** [background_filter_update] *)
Definition background_filter_update (filter : background_filter_data)
           (settings : obs_data) : background_filter_data :=
  let threshold := float_of_double (s_threshold settings) in
  let blur_amount := int_of_long_long (s_blur_amount settings) in
  let edge_smoothing := int_of_long_long (s_edge_smoothing settings) in
  let '(threshold, blur_amount, edge_smoothing) :=
    if negb (Security.ValidateConfigValues threshold blur_amount
               edge_smoothing)
    then (f_half, 15%Z, 3%Z)
    else (threshold, blur_amount, edge_smoothing) in
  mkFilter (inference filter)
           threshold
           (s_blur_background settings)
           blur_amount
           (s_replace_background settings)
           (uint32_of_long_long (s_replacement_color settings))
           (s_smooth_edges settings)
           edge_smoothing
           (width filter) (height filter) (last_process_time filter)
           (model_loaded filter) (processing filter).

(** The [cv::Vec3b bg_color] built from [replacement_color]. *)
Definition bg_color (replacement_color : Z) : Vec3b :=
  (uchar_of_int (Z.land (Z.shiftr replacement_color 0) 255),
   uchar_of_int (Z.land (Z.shiftr replacement_color 8) 255),
   uchar_of_int (Z.land (Z.shiftr replacement_color 16) 255)).

Section WithOpenCV.

Variable fs : FileSystem.
Variable ssl : OpenSSL.
Variable rt : Runtime.
Variable cv : OpenCV.


(** The compositing step of [background_filter_video]: from
    [output_frame = input_frame.clone()] to the end of the two branches. *)
Definition composite (filter : background_filter_data)
           (input_frame : Mat Vec3b) (mask : Mat float)
  : result (Mat Vec3b) :=
  let output_frame := input_frame in
  if replace_background filter then
    let bg := bg_color (replacement_color filter) in
    Ok (mat_fill (rows output_frame) (cols output_frame)
          (fun y x =>
             let alpha := mat_at f_zero mask y x in
             blend (mat_at black output_frame y x) bg alpha))
  else if blur_background filter then
    let kernel_size := (blur_amount filter * 2 + 1)%Z in
    match GaussianBlur_bgr cv input_frame kernel_size with
    | Throw => Throw
    | Ok blurred =>
        Ok (mat_fill (rows output_frame) (cols output_frame)
              (fun y x =>
                 let alpha := mat_at f_zero mask y x in
                 blend (mat_at black input_frame y x)
                       (mat_at black blurred y x) alpha))
    end
  else Ok output_frame.

(** The conversion of the frame to BGR; [None] for an unsupported
    format. *)
Definition to_input_frame (frame : obs_source_frame)
  : option (result (Mat Vec3b)) :=
  let h := frame_height frame in
  let w := frame_width frame in
  match frame_format frame with
  | VIDEO_FORMAT_I420 =>
      Some (cvtColor_in cv COLOR_YUV2BGR_I420 (h + h / 2) w
                        (frame_data0 frame))
  | VIDEO_FORMAT_NV12 =>
      Some (cvtColor_in cv COLOR_YUV2BGR_NV12 (h + h / 2) w
                        (frame_data0 frame))
  | VIDEO_FORMAT_RGBA =>
      Some (cvtColor_in cv COLOR_RGBA2BGR h w (frame_data0 frame))
  | _ => None
  end.

(** The conversion back and the [memcpy] into [frame->data[0]]. *)
Definition write_back (frame : obs_source_frame) (output_frame : Mat Vec3b)
  : result obs_source_frame :=
  let store bytes :=
    mkFrame (memcpy (frame_data0 frame) bytes) (frame_width frame)
            (frame_height frame) (frame_format frame) in
  match frame_format frame with
  | VIDEO_FORMAT_I420 =>
      match cvtColor_out cv COLOR_BGR2YUV_I420 output_frame with
      | Ok bytes => Ok (store bytes) | Throw => Throw end
  | VIDEO_FORMAT_NV12 =>
      match cvtColor_out cv COLOR_BGR2YUV_NV12 output_frame with
      | Ok bytes => Ok (store bytes) | Throw => Throw end
  | VIDEO_FORMAT_RGBA =>
      match cvtColor_out cv COLOR_BGR2RGBA output_frame with
      | Ok bytes => Ok (store bytes) | Throw => Throw end
  | _ => Ok frame
  end.

(** The optional edge smoothing of the mask. *)
Definition smooth (filter : background_filter_data) (mask : Mat float)
  : result (Mat float) :=
  if smooth_edges filter && (0 <? edge_smoothing filter)%Z then
    GaussianBlur_mask cv mask (edge_smoothing filter * 2 + 1)%Z
  else Ok mask.

(** The body of the [try] block: the frame to return, or [Throw] when an
    exception reaches the [catch]. *)
Definition process (filter : background_filter_data)
           (frame : obs_source_frame) : result obs_source_frame :=
  match to_input_frame frame with
  | None => Ok frame                      (* unsupported format *)
  | Some Throw => Throw
  | Some (Ok input_frame) =>
      match Inference.RunInference rt (inference filter) input_frame
              (threshold filter) with
      | None => Ok frame                  (* inference failed *)
      | Some mask =>
          match smooth filter mask with
          | Throw => Throw
          | Ok mask =>
              match composite filter input_frame mask with
              | Throw => Throw
              | Ok output_frame => write_back frame output_frame
              end
          end
      end
  end.

(** [background_filter_video]: the filter afterwards and the frame
    returned.  Every path that entered the critical section leaves with
    [processing] reset; a caught exception leaves the frame as it was. *)
Definition background_filter_video (filter : background_filter_data)
           (frame : obs_source_frame)
  : background_filter_data * obs_source_frame :=
  if negb (model_loaded filter) || processing filter then (filter, frame)
  else
    let filter := set_processing true filter in
    let filter :=
      if negb (width filter =? frame_width frame)%Z ||
         negb (height filter =? frame_height frame)%Z
      then set_dimensions (frame_width frame) (frame_height frame) filter
      else filter in
    match process filter frame with
    | Ok frame' => (set_processing false filter, frame')
    | Throw => (set_processing false filter, frame)
    end.

End WithOpenCV.

End Filter.

(* ================================================================== *)
(** ** What the properties speak about *)

(** The digest [CalculateFileSHA256] computes for a readable file. *)
Definition file_digest (ssl : OpenSSL) (content : list Byte.byte) : string :=
  Security.hex_digest
    (SHA256_Final ssl
       (Security.read_loop ssl (S (List.length content))
                           (SHA256_Init ssl) content)).

(** The artifact exists, is a regular file and is within the size cap. *)
Definition passes_file_checks (fs : FileSystem) (p : string) : Prop :=
  fs_exists fs p = Ok true /\
  fs_is_regular_file fs p = Ok true /\
  exists n, fs_file_size fs p = Ok n /\ (n <= Security.max_size)%N.

(** The optional expected hash is absent, or equals the digest of the file
    up to the case of the hexadecimal digits. *)
Definition hash_matches (fs : FileSystem) (ssl : OpenSSL)
           (p expected_hash : string) : Prop :=
  expected_hash = "" \/
  exists content,
    fs_contents fs p = Some content /\
    str_tolower expected_hash = str_tolower (file_digest ssl content).

(** [filepath] resolves inside the directory [base]. *)
Definition resolves_inside (fs : FileSystem) (filepath base : string)
  : Prop :=
  exists pc bc,
    resolves fs filepath pc /\ resolves fs base bc /\ is_prefix bc pc = true.

(** [filepath] resolves, and outside every directory of [allowed]. *)
Definition resolves_outside_all (fs : FileSystem) (filepath : string)
           (allowed : list string) : Prop :=
  forall pc base bc,
    resolves fs filepath pc -> In base allowed -> resolves fs base bc ->
    is_prefix bc pc = false.

(** The file system [fs] with other bytes in its files. *)
Definition with_contents (fs : FileSystem)
           (contents : string -> option (list Byte.byte)) : FileSystem :=
  {| fs_absolute := fs_absolute fs;
     fs_weakly_canonical := fs_weakly_canonical fs;
     fs_exists := fs_exists fs;
     fs_is_regular_file := fs_is_regular_file fs;
     fs_file_size := fs_file_size fs;
     fs_contents := contents |}.

Definition is_read (e : fs_event) : bool :=
  match e with EvOpenRead _ => true | _ => false end.

(** No event of the trace opens a file for reading. *)
Definition never_reads (tr : trace) : Prop :=
  List.existsb is_read tr = false.

(** Whatever the trace before, the computation appends events that never
    open a file. *)
Definition quiet {A} (m : IO A) : Prop :=
  forall tr, exists evs, snd (m tr) = tr ++ evs /\ never_reads evs.

(** [t] lies in the closed interval from 0 to 1. *)
Definition in_unit_interval (t : float) : bool :=
  f_le f_zero t && f_le t f_one.

(** The threshold of [Postprocess] applied to every value of a mask. *)
Definition threshold_mask (t : float) (mask : Mat float) : Mat float :=
  mkMat (rows mask) (cols mask)
        (List.map (Inference.apply_threshold t) (data mask)).

(** Two images of the same size with the same pixels. *)
Definition same_image (a b : Mat Vec3b) : Prop :=
  rows a = rows b /\ cols a = cols b /\
  forall y x, y < rows a -> x < cols a ->
              mat_at black a y x = mat_at black b y x.

(** The three layouts [background_filter_video] converts. *)
Definition supported (fmt : video_format) : bool :=
  match fmt with
  | VIDEO_FORMAT_I420 | VIDEO_FORMAT_NV12 | VIDEO_FORMAT_RGBA => true
  | _ => false
  end.

(** Every mask value over [r] rows and [c] columns equals [v]. *)
Definition mask_all (v : float) (r c : nat) (mask : Mat float) : Prop :=
  forall y x, y < r -> x < c -> mat_at f_zero mask y x = v.

(* ================================================================== *)
(** ** A small concrete environment *)

Module Demo.

Definition models : string := "/opt/models".
Definition good : string := "/opt/models/u2net.onnx".
Definition dotted : string := "/opt/models/u2..net.onnx".
Definition big : string := "/opt/models/big.onnx".
Definition evil : string := "/tmp/evil.onnx".
Definition sneaky : string := "/opt/models/../../tmp/evil.onnx".

Definition one_of (l : list string) (p : string) : bool :=
  List.existsb (String.eqb p) l.

Definition system_models : string :=
  "/usr/share/obs/obs-plugins/obs-background-filter/models".
Definition installed : string :=
  "/usr/share/obs/obs-plugins/obs-background-filter/models/u2net.onnx".
Definition installed_dotted : string :=
  "/usr/share/obs/obs-plugins/obs-background-filter/models/u2..net.onnx".
Definition home : string := "/home/user".

Definition plugin_dir : path :=
  ["home"; "user"; ".config"; "obs-studio"; "plugins";
   "obs-background-filter"; "data"].
Definition system_dir : path :=
  ["usr"; "share"; "obs"; "obs-plugins"; "obs-background-filter"; "models"].

(** The canonical form of the paths this file system knows. *)
Definition canonical_table : list (string * path) :=
  [ (models, ["opt"; "models"]);
    (good, ["opt"; "models"; "u2net.onnx"]);
    (dotted, ["opt"; "models"; "u2..net.onnx"]);
    (big, ["opt"; "models"; "big.onnx"]);
    (evil, ["tmp"; "evil.onnx"]);
    (sneaky, ["tmp"; "evil.onnx"]);
    ((home ++ "/.config/obs-studio/plugins/obs-background-filter/data/models")
       %string, plugin_dir ++ ["models"]);
    ((home ++ "/.config/obs-studio/plugins/obs-background-filter/data")
       %string, plugin_dir);
    (system_models, system_dir);
    (installed, system_dir ++ ["u2net.onnx"]);
    (installed_dotted, system_dir ++ ["u2..net.onnx"]) ].

Fixpoint lookup (table : list (string * path)) (p : string) : result path :=
  match table with
  | [] => Throw
  | (q, l) :: rest => if String.eqb p q then Ok l else lookup rest p
  end.

Definition files : list string :=
  [good; dotted; big; evil; installed; installed_dotted].

(** A file system without symbolic links holding six files. *)
Definition fs : FileSystem := {|
  fs_absolute := fun p => if str_empty p then Throw else Ok p;
  fs_weakly_canonical := lookup canonical_table;
  fs_exists := fun p => Ok (one_of (models :: system_models :: files) p);
  fs_is_regular_file := fun p => Ok (one_of files p);
  fs_file_size := fun p =>
    if String.eqb p big then Ok (600 * 1024 * 1024)%N
    else if one_of files p then Ok 4%N
    else Throw;
  fs_contents := fun p =>
    if one_of files p
    then Some [Byte.xab; Byte.xcd; Byte.x01; Byte.x02]
    else None
|}.

(** A stand-in for the digest: the first bytes of the input. *)
Definition ssl : OpenSSL := {|
  SHA256_CTX := list Byte.byte;
  SHA256_Init := [];
  SHA256_Update := fun ctx chunk => ctx ++ chunk;
  SHA256_Final := fun ctx => List.firstn SHA256_DIGEST_LENGTH ctx
|}.

(** "ABCD0102" followed by zeros: the digest above, in upper case. *)
Definition good_hash : string :=
  "ABCD010200000000000000000000000000000000000000000000000000000000".

Definition session : Session := {|
  GetInputCount := Ok 1;
  GetInputName := Ok "input";
  GetInputShape := Ok [1; 3; 320; 320]%Z;
  GetOutputCount := Ok 1;
  GetOutputName := Ok "output";
  GetOutputShape := Ok [1; 1; 320; 320]%Z
|}.

(** A session whose input description cannot be read. *)
Definition broken_session : Session := {|
  GetInputCount := Ok 1;
  GetInputName := Ok "input";
  GetInputShape := Throw;
  GetOutputCount := Ok 1;
  GetOutputName := Ok "output";
  GetOutputShape := Ok [1; 1; 320; 320]%Z
|}.

(** A runtime whose model answers the logit 0 everywhere on a 1 by 1
    output; [expf] is a placeholder, and [cv_resize] replicates the first
    value. *)
Definition rt (have : bool) (fails : bool) : Runtime := {|
  HAVE_ONNXRUNTIME := have;
  env_HOME := Some home;
  ort_create_session := fun _ content =>
    match content with
    | Some (Byte.xab :: _) => Ok session
    | Some (Byte.xba :: _) => Ok broken_session
    | _ => Throw
    end;
  ort_infer := fun _ _ =>
    if fails then Throw
    else Ok {| output_data := [f_zero]; output_height := 1;
               output_width := 1 |};
  expf := fun _ => f_one;
  cv_resize := fun m w h =>
    Ok (mkMat h w (List.repeat (List.nth 0 (data m) f_zero) (h * w)))
|}.

(** Colour conversions that keep the first three bytes as one pixel. *)
Definition cv : OpenCV := {|
  cvtColor_in := fun _ h w bytes =>
    Ok (mkMat 1 1 [(List.nth 0 bytes Byte.x00, List.nth 1 bytes Byte.x00,
                    List.nth 2 bytes Byte.x00)]);
  cvtColor_out := fun _ m =>
    let '(b, g, r) := List.nth 0 (data m) black in Ok [b; g; r];
  GaussianBlur_mask := fun m _ => Ok m;
  GaussianBlur_bgr := fun m _ => Ok m
|}.

Definition loaded : ModelInference :=
  mkModelInference true true 320 320 ["input"] ["output"]
                   [1; 3; 320; 320]%Z [1; 1; 320; 320]%Z.

Definition filter : background_filter_data :=
  mkFilter loaded f_half false 15 true 4278255360 true 3 0 0 0 true false.

Definition frame (fmt : video_format) : obs_source_frame :=
  mkFrame [Byte.x10; Byte.x20; Byte.x30; Byte.xff] 1 1 fmt.

Definition image : Mat Vec3b :=
  mkMat 1 2 [(Byte.x10, Byte.x20, Byte.x30); (Byte.xf0, Byte.x00, Byte.x7f)].

End Demo.

(* ================================================================== *)
(** ** [Security::SanitizePath] *)

Module Sanitize.

(** [std::replace(s.begin(), s.end(), '\\', '/')] *)
Fixpoint replace_backslash (s : string) : string :=
  match s with
  | EmptyString => EmptyString
  | String c s' =>
      String (if Ascii.eqb c "\" then "/"%char else c) (replace_backslash s')
  end.

(** [pos = s.find(".."); s.erase(pos, 2)], or [None] when [find] returns
    [npos]. *)
Fixpoint erase_dotdot (s : string) : option string :=
  match s with
  | EmptyString => None
  | String c rest =>
      match rest with
      | String d rest' =>
          if Ascii.eqb c "." && Ascii.eqb d "." then Some rest'
          else option_map (String c) (erase_dotdot rest)
      | EmptyString => None
      end
  end.

(** [pos = s.find("//"); s.erase(pos, 1)], or [None] when [find] returns
    [npos]. *)
Fixpoint erase_slash (s : string) : option string :=
  match s with
  | EmptyString => None
  | String c rest =>
      match rest with
      | String d rest' =>
          if Ascii.eqb c "/" && Ascii.eqb d "/" then Some rest
          else option_map (String c) (erase_slash rest)
      | EmptyString => None
      end
  end.

(** [while (s.find(..) != npos) { erase }]: every round shortens the
    string, so fuel equal to its length is never exhausted. *)
Fixpoint erase_while (erase : string -> option string) (fuel : nat)
         (s : string) : string :=
  match fuel with
  | O => s
  | S fuel' =>
      match erase s with
      | None => s
      | Some s' => erase_while erase fuel' s'
      end
  end.

Definition not_backslash (c : ascii) : bool := negb (Ascii.eqb c "\").

(** The string [SanitizePath] hands to [lexically_normal]. *)
Definition stripped (filepath : string) : string :=
  let sanitized := replace_backslash filepath in
  let sanitized :=
    erase_while erase_dotdot (String.length sanitized) sanitized in
  erase_while erase_slash (String.length sanitized) sanitized.

(** [SanitizePath]; [lexically_normal] is
    [fs::path(s).lexically_normal().string()], which may throw. *)
Definition SanitizePath (lexically_normal : string -> result string)
           (filepath : string) : string :=
  match lexically_normal (stripped filepath) with
  | Ok normalized => normalized
  | Throw => ""
  end.

End Sanitize.

(* ================================================================== *)
(** ** The host side *)

(** 0.5 as a [double]. *)
Definition d_half : spec_float := S754_finite false 4503599627370496 (-53).

(** The settings of a source that only has the defaults
    [background_filter_defaults] declares. *)
Definition background_filter_defaults : obs_data :=
  mkSettings d_half false 15 true 4278255360 true 3.

(** The host calling [background_filter_video] on one frame after the
    other. *)
Fixpoint video_stream (rt : Runtime) (cv : OpenCV)
         (filter : background_filter_data) (frames : list obs_source_frame)
  : background_filter_data * list obs_source_frame :=
  match frames with
  | [] => (filter, [])
  | frame :: rest =>
      let '(filter', frame') :=
        Filter.background_filter_video rt cv filter frame in
      let '(filter'', rest') := video_stream rt cv filter' rest in
      (filter'', frame' :: rest')
  end.

(** An OpenCV whose Gaussian blur always throws. *)
Definition cv_blur_throws : OpenCV := {|
  cvtColor_in := cvtColor_in Demo.cv;
  cvtColor_out := cvtColor_out Demo.cv;
  GaussianBlur_mask := fun _ _ => Throw;
  GaussianBlur_bgr := fun _ _ => Throw
|}.






(** A lower-case hexadecimal digit. *)
Definition is_lower_hex (c : ascii) : bool :=
  let n := N_of_ascii c in
  (((48 <=? n) && (n <=? 57)) || ((97 <=? n) && (n <=? 102)))%N.

Fixpoint str_forall (f : ascii -> bool) (s : string) : bool :=
  match s with
  | EmptyString => true
  | String c s' => f c && str_forall f s'
  end.

(** The 32-bit word made of the bytes [b0] (lowest) to [b3] (highest). *)
Definition pack_color (b0 b1 b2 b3 : uchar) : Z :=
  (int_of_uchar b0 + 256 * int_of_uchar b1 + 65536 * int_of_uchar b2 +
   16777216 * int_of_uchar b3)%Z.

(** The configuration is within the ranges the filter declares. *)
Definition config_in_range (f : background_filter_data) : Prop :=
  (threshold f = f_nan \/ in_unit_interval (threshold f) = true) /\
  (1 <= blur_amount f <= 50)%Z /\
  (1 <= edge_smoothing f <= 10)%Z.

(* ================================================================== *)
(** * Properties *)

(** ** Strings and paths *)

Lemma str_contains_prefix (needle s : string) :
  String.prefix needle s = true -> str_contains needle s = true.
Proof.
  intros H. destruct s; simpl in *; rewrite H; reflexivity.
Qed.

Lemma str_empty_false_append (c s : string) :
  str_empty c = false -> str_empty (c ++ s)%string = false.
Proof.
  destruct c; simpl; [discriminate | reflexivity].
Qed.

Lemma path_string_cons_nonempty (c : string) (rest : path) :
  str_empty c = false -> path_empty (c :: rest) = false.
Proof.
  intros H. unfold path_empty. destruct rest; simpl.
  - exact H.
  - apply str_empty_false_append. exact H.
Qed.

Lemma path_string_dotdot_first (rest : path) :
  str_contains ".." (path_string (".." :: rest)) = true.
Proof.
  apply str_contains_prefix. destruct rest; reflexivity.
Qed.

Lemma mismatch_app (bc r : path) : mismatch (bc ++ r) bc = (r, []).
Proof.
  induction bc as [|b bc IH]; simpl.
  - destruct r; reflexivity.
  - rewrite String.eqb_refl. exact IH.
Qed.

(** Past a base that is no prefix, [mismatch] leaves a non-empty rest of
    the base. *)
Lemma mismatch_not_prefix (bc pc : path) :
  is_prefix bc pc = false ->
  forallb normal_component bc = true ->
  exists a c b, mismatch pc bc = (a, c :: b) /\
                forallb normal_component (c :: b) = true.
Proof.
  revert pc. induction bc as [|c bc IH]; intros pc Hp Hn.
  - discriminate.
  - destruct pc as [|a pc].
    + exists [], c, bc. split; [reflexivity | exact Hn].
    + simpl in Hp. simpl. rewrite String.eqb_sym in Hp.
      destruct (String.eqb a c) eqn:E.
      * simpl in Hp. simpl in Hn. apply andb_true_iff in Hn.
        destruct Hn as [_ Hn]. apply IH; assumption.
      * exists (a :: pc), c, bc. split; [reflexivity | exact Hn].
Qed.

Lemma normal_not_dotdot (c : string) :
  normal_component c = true -> is_dotdot c = false.
Proof.
  unfold normal_component. intros H.
  apply andb_true_iff in H. destruct H as [_ H].
  apply negb_true_iff in H. exact H.
Qed.

Lemma count_normal_all (b : path) :
  forallb normal_component b = true ->
  count_if normal_component b = Z.of_nat (List.length b) /\
  count_if is_dotdot b = 0%Z.
Proof.
  unfold count_if. induction b as [|c b IH]; intros H.
  - split; reflexivity.
  - simpl in H. apply andb_true_iff in H. destruct H as [Hc Hb].
    destruct (IH Hb) as [IH1 IH2]. simpl.
    rewrite Hc, (normal_not_dotdot c Hc). simpl. split.
    + f_equal. f_equal. apply Nat2Z.inj. exact IH1.
    + exact IH2.
Qed.

(** Relative to a base that is no prefix, the path starts with dot-dot. *)
Lemma lexically_relative_outside (pc bc : path) :
  is_prefix bc pc = false ->
  forallb normal_component bc = true ->
  exists rest, lexically_relative pc bc = ".." :: rest.
Proof.
  intros Hp Hn.
  destruct (mismatch_not_prefix bc pc Hp Hn) as (a & c & b & Hm & Hb).
  unfold lexically_relative. rewrite Hm.
  destruct (count_normal_all (c :: b) Hb) as [H1 H2].
  rewrite H1, H2, Z.sub_0_r.
  assert (Hlen : Z.of_nat (List.length (c :: b)) =
                 Z.of_nat (S (List.length b))) by reflexivity.
  rewrite Hlen.
  assert (Hneg : (Z.of_nat (S (List.length b)) <? 0)%Z = false)
    by (apply Z.ltb_ge; lia).
  assert (Hz : (Z.of_nat (S (List.length b)) =? 0)%Z = false)
    by (apply Z.eqb_neq; lia).
  rewrite Nat2Z.id.
  destruct a; rewrite Hneg, Hz; simpl; eexists; reflexivity.
Qed.

(** Relative to a base that is a prefix, the path is the remainder, or dot. *)
Lemma lexically_relative_inside (bc r : path) :
  lexically_relative (bc ++ r) bc = ["."] \/
  (exists c rest, r = c :: rest /\ str_empty c = false /\
                  lexically_relative (bc ++ r) bc = r).
Proof.
  unfold lexically_relative. rewrite mismatch_app.
  destruct r as [|c rest]; [left; reflexivity|].
  simpl. destruct (str_empty c) eqn:E.
  - left. reflexivity.
  - right. exists c, rest. repeat split; assumption.
Qed.

Lemma hex_digest_nonempty (hash : list Byte.byte) :
  str_empty (Security.hex_digest hash) = false.
Proof. reflexivity. Qed.

(** ** Computations that never open a file *)

Lemma quiet_ret {A} (a : A) : quiet (ret a).
Proof. intros tr. exists []. split; [symmetry; apply app_nil_r | reflexivity]. Qed.

Lemma quiet_throw {A} : quiet (fun tr => (@Throw A, tr)).
Proof. intros tr. exists []. split; [symmetry; apply app_nil_r | reflexivity]. Qed.

Lemma quiet_call {A} (ev : fs_event) (r : result A) :
  is_read ev = false -> quiet (call ev r).
Proof.
  intros H tr. exists [ev]. split; [reflexivity|].
  unfold never_reads. simpl. rewrite H. reflexivity.
Qed.

Lemma never_reads_app (e1 e2 : trace) :
  never_reads e1 -> never_reads e2 -> never_reads (e1 ++ e2).
Proof.
  unfold never_reads. intros H1 H2.
  rewrite existsb_app, H1, H2. reflexivity.
Qed.

Lemma quiet_bind {A B} (m : IO A) (k : A -> IO B) :
  quiet m -> (forall a, quiet (k a)) -> quiet (bind m k).
Proof.
  intros Hm Hk tr. unfold bind.
  destruct (Hm tr) as (e1 & E1 & N1).
  destruct (m tr) as [[a|] tr1]; simpl in E1; subst tr1.
  - destruct (Hk a (tr ++ e1)) as (e2 & E2 & N2).
    exists (e1 ++ e2). rewrite E2, app_assoc. split; [reflexivity|].
    apply never_reads_app; assumption.
  - exists e1. split; [reflexivity | assumption].
Qed.

Lemma quiet_try_catch {A} (body handler : IO A) :
  quiet body -> quiet handler -> quiet (try_catch body handler).
Proof.
  intros Hb Hh tr. unfold try_catch.
  destruct (Hb tr) as (e1 & E1 & N1).
  destruct (body tr) as [[a|] tr1]; simpl in E1; subst tr1.
  - exists e1. split; [reflexivity | assumption].
  - destruct (Hh (tr ++ e1)) as (e2 & E2 & N2).
    exists (e1 ++ e2). rewrite E2, app_assoc. split; [reflexivity|].
    apply never_reads_app; assumption.
Qed.

Lemma quiet_if {A} (b : bool) (m1 m2 : IO A) :
  quiet m1 -> quiet m2 -> quiet (if b then m1 else m2).
Proof. destruct b; auto. Qed.

Ltac quiet_steps :=
  repeat first
    [ apply quiet_ret | apply quiet_throw
    | apply quiet_call; reflexivity
    | apply quiet_try_catch | apply quiet_if
    | apply quiet_bind; [| intros ? ] ].

Lemma quiet_relative (fs : FileSystem) (p base : string) :
  quiet (Security.relative fs p base).
Proof.
  unfold Security.relative, Security.weakly_canonical. quiet_steps.
Qed.

Lemma quiet_ValidatePath_loop (fs : FileSystem) (abs_path : string)
      (allowed : list string) :
  quiet (Security.ValidatePath_loop fs abs_path allowed).
Proof.
  induction allowed as [|b rest IH]; simpl.
  - apply quiet_ret.
  - unfold Security.absolute.
    apply quiet_bind; [apply quiet_call; reflexivity | intros ba].
    apply quiet_bind; [apply quiet_relative | intros rel].
    apply quiet_if; [apply quiet_ret | exact IH].
Qed.

Lemma quiet_ValidatePath (fs : FileSystem) (filepath : string)
      (allowed : list string) :
  quiet (Security.ValidatePath fs filepath allowed).
Proof.
  unfold Security.ValidatePath, Security.absolute.
  apply quiet_try_catch; [| apply quiet_ret].
  apply quiet_if; [apply quiet_ret|].
  apply quiet_bind; [apply quiet_call; reflexivity | intros a].
  apply quiet_ValidatePath_loop.
Qed.

(** Without an expected hash the integrity check never opens the file. *)
Lemma quiet_VerifyModelIntegrity_nohash (fs : FileSystem) (ssl : OpenSSL)
      (p : string) :
  quiet (Security.VerifyModelIntegrity fs ssl p "").
Proof.
  unfold Security.VerifyModelIntegrity, Security.exists_,
    Security.is_regular_file, Security.file_size.
  simpl. quiet_steps.
Qed.

(** With the empty hash the gate never opens a file. *)
Lemma quiet_authorize_nohash (fs : FileSystem) (ssl : OpenSSL)
      (p : string) (allowed : list string) :
  quiet (Security.authorize fs ssl p allowed "").
Proof.
  unfold Security.authorize.
  apply quiet_try_catch; [| apply quiet_ret].
  apply quiet_bind; [apply quiet_ValidatePath | intros valid].
  apply quiet_if; [apply quiet_ret|].
  apply quiet_bind; [apply quiet_VerifyModelIntegrity_nohash | intros ok].
  apply quiet_if; apply quiet_ret.
Qed.

(* ================================================================== *)
(** ** The path check *)

#[local] Arguments lexically_relative : simpl never.
#[local] Arguments path_string : simpl never.
#[local] Arguments str_contains : simpl never.
#[local] Arguments path_empty : simpl never.

Ltac io_unfold :=
  unfold Security.absolute, Security.relative, Security.weakly_canonical,
    Security.exists_, Security.is_regular_file, Security.file_size,
    Security.open_read;
  unfold call, ret, bind; cbn beta iota.

Ltac io_red := cbn beta iota delta [negb fst snd].

(** C2.  A path whose string contains the traversal token [".."] is
    refused by [ValidatePath] for every allow-list and every file system,
    and the trace is left as it was: the refusal comes before any call that
    resolves the path or a base directory. *)
Theorem ValidatePath_rejects_traversal
        (fs : FileSystem) (filepath : string) (allowed : list string)
        (tr : trace) :
  str_contains ".." filepath = true ->
  Security.ValidatePath fs filepath allowed tr = (Ok false, tr).
Proof.
  intros H. unfold Security.ValidatePath, try_catch.
  rewrite H. reflexivity.
Qed.

(** In the demo a path that climbs out of the model directory is refused,
    and so is a file that lies in the allowed directory itself but has two
    dots in its name. *)
Lemma ValidatePath_rejects_traversal_witness :
  Security.ValidatePath Demo.fs Demo.sneaky [Demo.models] [] =
  (Ok false, []) /\
  Security.ValidatePath Demo.fs Demo.dotted [Demo.models] [] =
  (Ok false, []).
Proof.
  split.
  - apply (ValidatePath_rejects_traversal Demo.fs Demo.sneaky
             [Demo.models] []).
    reflexivity.
  - apply (ValidatePath_rejects_traversal Demo.fs Demo.dotted
             [Demo.models] []).
    reflexivity.
Defined.

(** The loop refuses when every base that resolves is no prefix. *)
Lemma ValidatePath_loop_outside (fs : FileSystem) (a : string) (pc : path)
      (allowed : list string) :
  canonical_normal fs ->
  fs_weakly_canonical fs a = Ok pc ->
  (forall base bc, In base allowed -> resolves fs base bc ->
                   is_prefix bc pc = false) ->
  forall tr, fst (Security.ValidatePath_loop fs a allowed tr) <> Ok true.
Proof.
  intros Hn Ha. induction allowed as [|b rest IH]; intros Hout tr.
  - simpl. discriminate.
  - simpl. io_unfold.
    destruct (fs_absolute fs b) as [ba|] eqn:Eb; [|simpl; discriminate].
    rewrite Ha.
    destruct (fs_weakly_canonical fs ba) as [bc|] eqn:Ec;
      [|simpl; discriminate].
    assert (Hp : is_prefix bc pc = false).
    { apply (Hout b bc); [left; reflexivity | exists ba; auto]. }
    destruct (lexically_relative_outside pc bc Hp (Hn ba bc Ec))
      as [rest' Hrel].
    rewrite Hrel, path_string_dotdot_first, andb_false_r.
    apply IH. intros base bc' Hin. apply Hout. right. exact Hin.
Qed.

Lemma ValidatePath_outside (fs : FileSystem) (filepath : string)
      (allowed : list string) (tr : trace) :
  canonical_normal fs ->
  resolves_outside_all fs filepath allowed ->
  fst (Security.ValidatePath fs filepath allowed tr) = Ok false.
Proof.
  intros Hn Hout. unfold Security.ValidatePath, try_catch.
  destruct (str_contains ".." filepath); [reflexivity|].
  io_unfold.
  destruct (fs_absolute fs filepath) as [a|] eqn:Ea; [|reflexivity].
  pose proof (quiet_ValidatePath_loop fs a allowed) as Hq.
  destruct (fs_weakly_canonical fs a) as [pc|] eqn:Ec.
  - assert (H := ValidatePath_loop_outside fs a pc allowed Hn Ec).
    specialize (H (fun base bc Hin Hr =>
                     Hout pc base bc (ex_intro _ a (conj Ea Ec)) Hin Hr)
                  (tr ++ [EvAbsolute filepath])).
    destruct (Security.ValidatePath_loop fs a allowed
                (tr ++ [EvAbsolute filepath])) as [[[|]|] tr'];
      simpl in *; congruence.
  - (* the path itself does not resolve: the first base, if any, throws *)
    destruct allowed as [|b rest]; [reflexivity|].
    simpl. io_unfold.
    destruct (fs_absolute fs b); [rewrite Ec|]; reflexivity.
Qed.

(** The loop accepts at the first base that contains the path, provided
    the bases before it resolve. *)
Lemma ValidatePath_loop_inside (fs : FileSystem) (a : string)
      (pre post : list string) (base : string) (bc r : path) :
  fs_weakly_canonical fs a = Ok (bc ++ r) ->
  (forall b, In b pre -> exists l, resolves fs b l) ->
  resolves fs base bc ->
  str_contains ".." (path_string r) = false ->
  forall tr,
    fst (Security.ValidatePath_loop fs a (pre ++ base :: post) tr) = Ok true.
Proof.
  intros Ha Hpre (ba & Eba & Ebc) Hr.
  induction pre as [|b pre IH]; intros tr; simpl; io_unfold.
  - rewrite Eba, Ha, Ebc.
    destruct (lexically_relative_inside bc r) as [E | (c & rest & Er & Ec & E)];
      rewrite E.
    + reflexivity.
    + rewrite Hr. subst r. rewrite (path_string_cons_nonempty c rest Ec).
      reflexivity.
  - destruct (Hpre b (or_introl eq_refl)) as (l & b' & E1 & E2).
    rewrite E1, Ha, E2.
    match goal with |- context [if ?c then _ else _] => destruct c end.
    + reflexivity.
    + apply IH. intros b0 Hin. apply Hpre. right. exact Hin.
Qed.

Lemma ValidatePath_inside (fs : FileSystem) (filepath : string)
      (pre post : list string) (base : string) (bc r : path) (tr : trace) :
  str_contains ".." filepath = false ->
  (forall b, In b pre -> exists l, resolves fs b l) ->
  resolves fs base bc ->
  resolves fs filepath (bc ++ r) ->
  str_contains ".." (path_string r) = false ->
  fst (Security.ValidatePath fs filepath (pre ++ base :: post) tr) = Ok true.
Proof.
  intros Hdd Hpre Hb (a & Ea & Ec) Hr.
  unfold Security.ValidatePath, try_catch. rewrite Hdd.
  io_unfold. rewrite Ea.
  pose proof (ValidatePath_loop_inside fs a pre post base bc r Ec Hpre Hb Hr
                (tr ++ [EvAbsolute filepath])) as H.
  destruct (Security.ValidatePath_loop fs a (pre ++ base :: post)
              (tr ++ [EvAbsolute filepath])) as [[v|] tr'];
    simpl in *; congruence.
Qed.

(* ================================================================== *)
(** ** The integrity check *)

Lemma buffer_size_pos : 0 < Security.buffer_size.
Proof. vm_compute. apply le_n_S, Nat.le_0_l. Qed.

(** The fuel [CalculateFileSHA256] gives the read loop is enough: any
    larger amount hashes the same chunks. *)
Lemma read_loop_fuel (ssl : OpenSSL) (n m : nat) :
  forall (ctx : SHA256_CTX ssl) (stream : list Byte.byte),
    List.length stream < n -> List.length stream < m ->
    Security.read_loop ssl n ctx stream = Security.read_loop ssl m ctx stream.
Proof.
  revert m. induction n as [|n IH]; intros m ctx stream Hn Hm; [lia|].
  destruct m as [|m]; [lia|].
  cbn [Security.read_loop].
  destruct (firstn Security.buffer_size stream) as [|b chunk] eqn:E;
    [reflexivity|].
  assert (Hs : stream <> []) by (intros ->; rewrite firstn_nil in E;
                                 discriminate).
  assert (Hl : List.length (skipn Security.buffer_size stream)
               < List.length stream).
  { rewrite length_skipn. pose proof buffer_size_pos.
    destruct stream; [congruence | simpl; lia]. }
  apply IH; lia.
Qed.

Lemma VerifyFileChecksum_matching (fs : FileSystem) (ssl : OpenSSL)
      (p expected : string) (tr : trace) :
  hash_matches fs ssl p expected ->
  fst (Security.VerifyFileChecksum fs ssl p expected tr) = Ok true.
Proof.
  intros [E | (content & Ec & Eh)]; unfold Security.VerifyFileChecksum.
  - subst expected. reflexivity.
  - destruct (str_empty expected); [reflexivity|].
    unfold Security.CalculateFileSHA256, try_catch. io_unfold.
    rewrite Ec. cbn beta iota.
    fold (file_digest ssl content).
    unfold file_digest at 1. rewrite hex_digest_nonempty.
    fold (file_digest ssl content).
    rewrite Eh, String.eqb_refl. reflexivity.
Qed.

Lemma VerifyModelIntegrity_accepts (fs : FileSystem) (ssl : OpenSSL)
      (p expected : string) (tr : trace) :
  passes_file_checks fs p ->
  hash_matches fs ssl p expected ->
  fst (Security.VerifyModelIntegrity fs ssl p expected tr) = Ok true.
Proof.
  intros (He & Hr & n & Hs & Hn) Hh.
  unfold Security.VerifyModelIntegrity. io_unfold.
  rewrite He. io_red. rewrite Hr. io_red. rewrite Hs. io_red.
  assert (Hlt : (Security.max_size <? n)%N = false)
    by (apply N.ltb_ge; exact Hn).
  rewrite Hlt.
  destruct (str_empty expected); io_red; [reflexivity|].
  pose proof (VerifyFileChecksum_matching fs ssl p expected
                (((tr ++ [EvExists p]) ++ [EvIsRegularFile p]) ++
                 [EvFileSize p]) Hh) as H.
  destruct (Security.VerifyFileChecksum fs ssl p expected _) as [[[|]|] tr'];
    simpl in *; congruence.
Qed.

(** C3.  When the size of the artifact exceeds 500 MiB,
    [VerifyModelIntegrity] returns [false] whatever the expected hash is,
    a matching one included, and the calls it made stop at the size query:
    the file is never opened, so no checksum is computed. *)
Theorem VerifyModelIntegrity_rejects_oversized
        (fs : FileSystem) (ssl : OpenSSL) (p expected : string)
        (tr : trace) (e r : bool) (n : N) :
  fs_exists fs p = Ok e ->
  fs_is_regular_file fs p = Ok r ->
  fs_file_size fs p = Ok n ->
  (500 * 1024 * 1024 < n)%N ->
  fst (Security.VerifyModelIntegrity fs ssl p expected tr) = Ok false /\
  exists evs,
    snd (Security.VerifyModelIntegrity fs ssl p expected tr) = tr ++ evs /\
    never_reads evs.
Proof.
  intros He Hr Hs Hn.
  assert (Hlt : (Security.max_size <? n)%N = true)
    by (apply N.ltb_lt; exact Hn).
  unfold Security.VerifyModelIntegrity. io_unfold.
  rewrite He. destruct e; io_red.
  - rewrite Hr. destruct r; io_red.
    + rewrite Hs. io_red. rewrite Hlt. split; [reflexivity|].
      exists [EvExists p; EvIsRegularFile p; EvFileSize p].
      split; [| reflexivity].
      io_red. rewrite <- !app_assoc. reflexivity.
    + split; [reflexivity|].
      exists [EvExists p; EvIsRegularFile p].
      split; [| reflexivity].
      io_red. rewrite <- !app_assoc. reflexivity.
  - split; [reflexivity|].
    exists [EvExists p]. split; reflexivity.
Qed.

(** The oversized file of the demo, presented with the very hash of its
    content, is refused. *)
Lemma VerifyModelIntegrity_rejects_oversized_witness :
  hash_matches Demo.fs Demo.ssl Demo.big Demo.good_hash /\
  fst (Security.VerifyModelIntegrity Demo.fs Demo.ssl Demo.big
         Demo.good_hash []) = Ok false /\
  exists evs,
    snd (Security.VerifyModelIntegrity Demo.fs Demo.ssl Demo.big
           Demo.good_hash []) = [] ++ evs /\
    never_reads evs.
Proof.
  split.
  - right. eexists. split; reflexivity.
  - apply (VerifyModelIntegrity_rejects_oversized Demo.fs Demo.ssl Demo.big
             Demo.good_hash [] true true (600 * 1024 * 1024)%N);
      [reflexivity | reflexivity | reflexivity | vm_compute; reflexivity].
Defined.

(* ================================================================== *)
(** ** The gate *)

Lemma authorize_of_parts (fs : FileSystem) (ssl : OpenSSL)
      (p : string) (allowed : list string) (expected : string) (tr : trace) :
  fst (Security.authorize fs ssl p allowed expected tr) =
  match Security.ValidatePath fs p allowed tr with
  | (Ok true, tr') =>
      match fst (Security.VerifyModelIntegrity fs ssl p expected tr') with
      | Ok true => Ok true
      | _ => Ok false
      end
  | _ => Ok false
  end.
Proof.
  unfold Security.authorize, try_catch, bind.
  destruct (Security.ValidatePath fs p allowed tr) as [[[|]|] tr'];
    try reflexivity.
  io_red.
  destruct (Security.VerifyModelIntegrity fs ssl p expected tr')
    as [[[|]|] tr'']; reflexivity.
Qed.

(** C1, as the code has it.  A path that resolves outside every allowed
    base directory is rejected.  A path is authorized when its string holds
    no [".."], the bases tried before the containing one resolve, the
    remainder of the path below the containing base holds no [".."], the
    artifact passes the existence, regular-file and size checks, and the
    optional hash matches. *)
Theorem authorize_containment
        (fs : FileSystem) (ssl : OpenSSL) (filepath : string)
        (allowed : list string) (expected : string) (tr : trace) :
  canonical_normal fs ->
  (resolves_outside_all fs filepath allowed ->
   fst (Security.authorize fs ssl filepath allowed expected tr) = Ok false)
  /\
  (forall pre base post bc r,
      allowed = pre ++ base :: post ->
      str_contains ".." filepath = false ->
      (forall b, In b pre -> exists l, resolves fs b l) ->
      resolves fs base bc ->
      resolves fs filepath (bc ++ r) ->
      str_contains ".." (path_string r) = false ->
      passes_file_checks fs filepath ->
      hash_matches fs ssl filepath expected ->
      fst (Security.authorize fs ssl filepath allowed expected tr) = Ok true).
Proof.
  intros Hn. split.
  - intros Hout. rewrite authorize_of_parts.
    pose proof (ValidatePath_outside fs filepath allowed tr Hn Hout) as H.
    destruct (Security.ValidatePath fs filepath allowed tr) as [[[|]|] tr'];
      simpl in H; congruence.
  - intros pre base post bc r -> Hdd Hpre Hb Hp Hr Hc Hh.
    rewrite authorize_of_parts.
    pose proof (ValidatePath_inside fs filepath pre post base bc r tr
                  Hdd Hpre Hb Hp Hr) as H.
    destruct (Security.ValidatePath fs filepath (pre ++ base :: post) tr)
      as [[[|]|] tr']; simpl in H; try congruence.
    rewrite (VerifyModelIntegrity_accepts fs ssl filepath expected tr' Hc Hh).
    reflexivity.
Qed.

Lemma Demo_fs_canonical_normal : canonical_normal Demo.fs.
Proof.
  intros a l. unfold Demo.fs, fs_weakly_canonical.
  unfold Demo.canonical_table, Demo.lookup.
  repeat match goal with
         | |- context [if ?c then _ else _] => destruct c
         end;
    intros H; inversion H; reflexivity.
Qed.

(** In the demo the file under [/tmp] is rejected with [/opt/models]
    allowed, and the model under [/opt/models] is authorized with the hash
    of its content. *)
Lemma authorize_containment_witness :
  fst (Security.authorize Demo.fs Demo.ssl Demo.evil [Demo.models]
         Demo.good_hash []) = Ok false /\
  fst (Security.authorize Demo.fs Demo.ssl Demo.good [Demo.models]
         Demo.good_hash []) = Ok true.
Proof.
  split.
  - apply (authorize_containment Demo.fs Demo.ssl Demo.evil [Demo.models]
             Demo.good_hash [] Demo_fs_canonical_normal).
    intros pc base bc (a & Ea & Ec) [<- | []] (b & Eb & Ebc).
    inversion Ea; subst a. inversion Eb; subst b.
    inversion Ec; subst pc. inversion Ebc; subst bc. reflexivity.
  - apply (proj2 (authorize_containment Demo.fs Demo.ssl Demo.good
                    [Demo.models] Demo.good_hash []
                    Demo_fs_canonical_normal)
             [] Demo.models [] ["opt"; "models"] ["u2net.onnx"]).
    + reflexivity.
    + reflexivity.
    + intros b [].
    + exists Demo.models. split; reflexivity.
    + exists Demo.good. split; reflexivity.
    + reflexivity.
    + split; [reflexivity | split; [reflexivity|]].
      exists 4%N. split; [reflexivity | vm_compute; discriminate].
    + right. eexists. split; reflexivity.
Defined.

(** C1 as stated fails: a model that lies in the allowed directory, passes
    the three file checks and carries the hash of its content is rejected
    when its name holds two dots in a row. *)
Lemma authorize_inside_rejected :
  (exists base, In base [Demo.models] /\
                resolves_inside Demo.fs Demo.dotted base) /\
  passes_file_checks Demo.fs Demo.dotted /\
  hash_matches Demo.fs Demo.ssl Demo.dotted Demo.good_hash /\
  fst (run (Security.authorize Demo.fs Demo.ssl Demo.dotted [Demo.models]
              Demo.good_hash)) = Ok false.
Proof.
  split; [| split; [| split]].
  - exists Demo.models. split; [left; reflexivity|].
    exists ["opt"; "models"; "u2..net.onnx"], ["opt"; "models"].
    split; [exists Demo.dotted; split; reflexivity|].
    split; [exists Demo.models; split; reflexivity | reflexivity].
  - split; [reflexivity | split; [reflexivity|]].
    exists 4%N. split; [reflexivity | vm_compute; discriminate].
  - right. eexists. split; reflexivity.
  - reflexivity.
Qed.

(* ================================================================== *)
(** ** Loading a model *)

(** [LoadModel] is the gate with the empty hash; when the gate lets the
    path through, the session is created from the bytes of the file. *)
Lemma LoadModel_gate (fs : FileSystem) (ssl : OpenSSL) (rt : Runtime)
      (mi : ModelInference) (p : string) (tr : trace) :
  HAVE_ONNXRUNTIME rt = true ->
  Inference.LoadModel fs ssl rt mi p tr =
  match Security.authorize fs ssl p
          (Inference.allowed_dirs (env_HOME rt)) "" tr with
  | (Ok true, tr') =>
      (Ok (Inference.open_session rt p (fs_contents fs p) mi),
       tr' ++ [EvOpenRead p])
  | (_, tr') => (Ok (false, mi), tr')
  end.
Proof.
  intros Hh.
  unfold Inference.LoadModel, Security.authorize, try_catch, bind.
  rewrite Hh.
  destruct (Security.ValidatePath fs p _ tr) as [[[|]|] tr'];
    try reflexivity.
  io_red.
  destruct (Security.VerifyModelIntegrity fs ssl p "" tr') as [[[|]|] tr''];
    reflexivity.
Qed.

(** The gate with the empty hash consults no byte of any file: replacing
    the contents of the files leaves it the same computation. *)
Lemma authorize_nohash_contents (fs : FileSystem) (ssl : OpenSSL)
      (p : string) (allowed : list string) contents :
  Security.authorize (with_contents fs contents) ssl p allowed "" =
  Security.authorize fs ssl p allowed "".
Proof. reflexivity. Qed.

Lemma describe_inputs_keeps (session : Session) (mi : ModelInference) :
  model_loaded_ (snd (Inference.describe_inputs session mi))
    = model_loaded_ mi /\
  has_session (snd (Inference.describe_inputs session mi)) = has_session mi.
Proof.
  unfold Inference.describe_inputs.
  destruct (GetInputCount session) as [n|]; [| split; reflexivity].
  destruct (Nat.ltb 0 n); [| split; reflexivity].
  destruct (GetInputName session) as [name|]; [| split; reflexivity].
  destruct (GetInputShape session); split; reflexivity.
Qed.

Lemma describe_outputs_keeps (session : Session) (mi : ModelInference) :
  model_loaded_ (snd (Inference.describe_outputs session mi))
    = model_loaded_ mi /\
  has_session (snd (Inference.describe_outputs session mi)) = has_session mi.
Proof.
  unfold Inference.describe_outputs.
  destruct (GetOutputCount session) as [n|]; [| split; reflexivity].
  destruct (Nat.ltb 0 n); [| split; reflexivity].
  destruct (GetOutputName session) as [name|]; [| split; reflexivity].
  destruct (GetOutputShape session); split; reflexivity.
Qed.

(** From the creation of the session on: the load succeeds exactly when
    the session is created and both descriptions are read; it then marks
    the object loaded, and otherwise leaves [model_loaded_] as it was. *)
Lemma open_session_result (rt : Runtime) (p : string)
      (content : option (list Byte.byte)) (mi : ModelInference) :
  (fst (Inference.open_session rt p content mi) = true <->
   exists session,
     ort_create_session rt p content = Ok session /\
     fst (Inference.describe_inputs session (Inference.with_session mi))
       = true /\
     fst (Inference.describe_outputs session
            (snd (Inference.describe_inputs session
                    (Inference.with_session mi)))) = true) /\
  (fst (Inference.open_session rt p content mi) = true ->
   model_loaded_ (snd (Inference.open_session rt p content mi)) = true /\
   has_session (snd (Inference.open_session rt p content mi)) = true) /\
  (fst (Inference.open_session rt p content mi) = false ->
   model_loaded_ (snd (Inference.open_session rt p content mi))
     = model_loaded_ mi).
Proof.
  unfold Inference.open_session.
  destruct (ort_create_session rt p content) as [session|]; cbv zeta.
  - pose proof (describe_inputs_keeps session (Inference.with_session mi))
      as [Li Si].
    destruct (Inference.describe_inputs session (Inference.with_session mi))
      as [[|] mi1] eqn:Di; cbn [negb fst snd] in *.
    + pose proof (describe_outputs_keeps session mi1) as [Lo So].
      destruct (Inference.describe_outputs session mi1) as [[|] mi2] eqn:Do;
        cbn [negb fst snd] in *.
      * split; [| split].
        -- split; [| intros _; reflexivity].
           intros _. exists session. rewrite Di. cbn [fst snd].
           rewrite Do. repeat split.
        -- intros _. split; [reflexivity|].
           cbn [Inference.set_model_loaded has_session].
           rewrite So, Si. reflexivity.
        -- discriminate.
      * split; [| split].
        -- split; [discriminate|].
           intros (s' & E & _ & H). inversion E; subst s'.
           rewrite Di in H. cbn [snd] in H. rewrite Do in H. discriminate.
        -- discriminate.
        -- intros _. rewrite Lo, Li. reflexivity.
    + split; [| split].
      * split; [discriminate|].
        intros (s' & E & H & _). inversion E; subst s'.
        rewrite Di in H. discriminate.
      * discriminate.
      * intros _. rewrite Li. reflexivity.
  - split; [| split].
    + split; [discriminate | intros (s' & E & _); discriminate].
    + discriminate.
    + reflexivity.
Qed.

(** C10, as the code has it.  Checksum verification with the empty
    expected hash returns [true] and makes no call at all.  [LoadModel]
    passes the empty hash: its gate never opens a file and gives the same
    verdict whatever bytes the files hold, and [LoadModel] refuses, with
    the object untouched, whenever that gate does.  An artifact whose path
    [ValidatePath] accepts and that passes the existence, regular-file and
    size checks goes on, unverified, to the inference session, which is the
    first to read the file; the model is loaded exactly when the session
    is created and its input and output descriptions are read. *)
Theorem LoadModel_never_verifies
        (fs : FileSystem) (ssl : OpenSSL) (rt : Runtime)
        (mi : ModelInference) (p : string) (tr : trace) :
  (forall q tr',
      Security.VerifyFileChecksum fs ssl q "" tr' = (Ok true, tr')) /\
  (exists evs,
      snd (Security.authorize fs ssl p
             (Inference.allowed_dirs (env_HOME rt)) "" tr) = tr ++ evs /\
      never_reads evs) /\
  (forall contents,
      Security.authorize (with_contents fs contents) ssl p
        (Inference.allowed_dirs (env_HOME rt)) "" tr =
      Security.authorize fs ssl p
        (Inference.allowed_dirs (env_HOME rt)) "" tr) /\
  (HAVE_ONNXRUNTIME rt = true ->
   fst (Security.authorize fs ssl p (Inference.allowed_dirs (env_HOME rt))
          "" tr) <> Ok true ->
   Inference.LoadModel fs ssl rt mi p tr =
   (Ok (false, mi),
    snd (Security.authorize fs ssl p
           (Inference.allowed_dirs (env_HOME rt)) "" tr))) /\
  (HAVE_ONNXRUNTIME rt = true ->
   fst (Security.ValidatePath fs p (Inference.allowed_dirs (env_HOME rt)) tr)
     = Ok true ->
   passes_file_checks fs p ->
   Inference.LoadModel fs ssl rt mi p tr =
   (Ok (Inference.open_session rt p (fs_contents fs p) mi),
    snd (Security.authorize fs ssl p
           (Inference.allowed_dirs (env_HOME rt)) "" tr)
    ++ [EvOpenRead p])) /\
  (forall content,
      fst (Inference.open_session rt p content mi) = true <->
      exists session,
        ort_create_session rt p content = Ok session /\
        fst (Inference.describe_inputs session (Inference.with_session mi))
          = true /\
        fst (Inference.describe_outputs session
               (snd (Inference.describe_inputs session
                       (Inference.with_session mi)))) = true).
Proof.
  split; [| split; [| split; [| split; [| split]]]].
  - intros q tr'. reflexivity.
  - apply quiet_authorize_nohash.
  - intros contents. rewrite authorize_nohash_contents. reflexivity.
  - intros Hh Hg. rewrite (LoadModel_gate fs ssl rt mi p tr Hh).
    destruct (Security.authorize fs ssl p _ "" tr) as [[[|]|] tr'];
      [simpl in Hg; congruence | reflexivity | reflexivity].
  - intros Hh Hv Hc. rewrite (LoadModel_gate fs ssl rt mi p tr Hh).
    assert (Ha : fst (Security.authorize fs ssl p
                        (Inference.allowed_dirs (env_HOME rt)) "" tr)
                 = Ok true).
    { rewrite authorize_of_parts.
      destruct (Security.ValidatePath fs p _ tr) as [[[|]|] tr'];
        simpl in Hv; try congruence.
      rewrite (VerifyModelIntegrity_accepts fs ssl p "" tr' Hc
                 (or_introl eq_refl)).
      reflexivity. }
    destruct (Security.authorize fs ssl p _ "" tr) as [[[|]|] tr'];
      simpl in Ha; try congruence. reflexivity.
  - intros content. apply open_session_result.
Qed.

(** The installed model of the demo is loaded, with no hash asked for; the
    same file with other bytes passes the same gate and is not loaded,
    because the session cannot describe its input. *)
Lemma LoadModel_never_verifies_witness :
  Inference.LoadModel Demo.fs Demo.ssl (Demo.rt true false)
    Inference.new Demo.installed [] =
  (Ok (Inference.open_session (Demo.rt true false) Demo.installed
         (fs_contents Demo.fs Demo.installed) Inference.new),
   snd (Security.authorize Demo.fs Demo.ssl Demo.installed
          (Inference.allowed_dirs (env_HOME (Demo.rt true false))) "" [])
   ++ [EvOpenRead Demo.installed]) /\
  fst (Inference.open_session (Demo.rt true false) Demo.installed
         (fs_contents Demo.fs Demo.installed) Inference.new) = true /\
  fst (Inference.LoadModel
         (with_contents Demo.fs (fun _ => Some [Byte.xba]))
         Demo.ssl (Demo.rt true false) Inference.new Demo.installed [])
  = Ok (false,
        Inference.push_input_name "input"
          (Inference.with_session Inference.new)).
Proof.
  split; [| split].
  - apply (proj2 (proj2 (proj2 (proj2
             (LoadModel_never_verifies Demo.fs Demo.ssl (Demo.rt true false)
                Inference.new Demo.installed []))))).
    + reflexivity.
    + vm_compute. reflexivity.
    + split; [reflexivity | split; [reflexivity|]].
      exists 4%N. split; [reflexivity | vm_compute; discriminate].
  - reflexivity.
  - reflexivity.
Defined.

(* ================================================================== *)
(** ** Configuration values *)

Lemma SFcompare_antisym (x y : float) :
  SFcompare y x = option_map CompOpp (SFcompare x y).
Proof.
  destruct x as [sx|sx| |sx mx ex], y as [sy|sy| |sy my ey];
    try reflexivity;
    try (destruct sx; reflexivity);
    try (destruct sy; reflexivity);
    try (destruct sx, sy; reflexivity).
  simpl. destruct sx, sy; try reflexivity; simpl;
    rewrite (Z.compare_antisym ex ey);
    destruct (ex ?= ey)%Z; simpl; try reflexivity;
    rewrite (Pos.compare_cont_antisym mx my Eq); reflexivity.
Qed.

(** Away from NaN the two rejecting comparisons are the complement of
    membership in the interval. *)
Lemma threshold_test_interval (t : float) :
  t <> f_nan ->
  f_lt t f_zero || f_gt t f_one = negb (in_unit_interval t).
Proof.
  intros Hn. unfold f_lt, f_gt, in_unit_interval, f_le, SFltb, SFleb.
  destruct t as [s|s| |s m e].
  - reflexivity.
  - destruct s; reflexivity.
  - exfalso. apply Hn. reflexivity.
  - destruct s; [reflexivity|].
    rewrite (SFcompare_antisym (S754_finite false m e) f_one).
    assert (H : exists c, SFcompare (S754_finite false m e) f_one = Some c)
      by (unfold f_one, SFcompare; eexists; reflexivity).
    destruct H as [c Hc]. rewrite Hc. destruct c; reflexivity.
Qed.

(** Away from NaN, [ValidateConfigValues] accepts exactly the three
    ranges. *)
Lemma ValidateConfigValues_ranges (t : float) (b s : Z) :
  t <> f_nan ->
  Security.ValidateConfigValues t b s = true <->
  in_unit_interval t = true /\ (1 <= b <= 50)%Z /\ (1 <= s <= 10)%Z.
Proof.
  intros Hn. unfold Security.ValidateConfigValues.
  rewrite (threshold_test_interval t Hn).
  destruct (in_unit_interval t); simpl.
  - destruct (b <? 1)%Z eqn:B1; destruct (50 <? b)%Z eqn:B2;
      destruct (s <? 1)%Z eqn:S1; destruct (10 <? s)%Z eqn:S2; simpl;
      rewrite ?Z.ltb_lt, ?Z.ltb_ge in *;
      split; intros H; try discriminate; try lia;
      try (split; [reflexivity | lia]).
  - split; [discriminate | intros [H _]; discriminate].
Qed.

(** When validation fails, the update stores the default triple and still
    applies the other settings. *)
Lemma background_filter_update_defaults
      (filter : background_filter_data) (settings : obs_data) :
  Security.ValidateConfigValues
    (float_of_double (s_threshold settings))
    (int_of_long_long (s_blur_amount settings))
    (int_of_long_long (s_edge_smoothing settings)) = false ->
  let filter' := Filter.background_filter_update filter settings in
  threshold filter' = f_half /\
  blur_amount filter' = 15%Z /\
  edge_smoothing filter' = 3%Z /\
  blur_background filter' = s_blur_background settings /\
  replace_background filter' = s_replace_background settings /\
  smooth_edges filter' = s_smooth_edges settings.
Proof.
  intros H. unfold Filter.background_filter_update. rewrite H.
  repeat split; reflexivity.
Qed.

(** C4, at the input the code mishandles.  A NaN threshold lies outside the
    interval from 0 to 1, yet [ValidateConfigValues] accepts it together
    with in-range integers, and the update stores it instead of the
    default 0.5. *)
Theorem ValidateConfigValues_accepts_nan :
  in_unit_interval f_nan = false /\
  Security.ValidateConfigValues f_nan 15 3 = true /\
  threshold
    (Filter.background_filter_update Demo.filter
       (mkSettings S754_nan false 15 true 4278255360 true 3)) = f_nan.
Proof. repeat split; reflexivity. Qed.

(* ================================================================== *)
(** ** The threshold step *)

(** The loop of [Postprocess] is the sigmoid followed by the threshold. *)
Lemma sigmoid_threshold_map (rt : Runtime) (output : list float) (n : nat)
      (t : float) :
  Inference.sigmoid_threshold rt output n t =
  List.map (Inference.apply_threshold t)
    (List.map (fun i => Inference.sigmoid rt (List.nth i output f_zero))
              (List.seq 0 n)).
Proof.
  unfold Inference.sigmoid_threshold. rewrite map_map. reflexivity.
Qed.

Lemma apply_threshold_idempotent (t v : float) :
  Inference.apply_threshold t (Inference.apply_threshold t v) =
  Inference.apply_threshold t v.
Proof.
  unfold Inference.apply_threshold.
  destruct (f_gt v t) eqn:E.
  - rewrite E. reflexivity.
  - destruct (f_gt f_zero t); reflexivity.
Qed.






(** C6.  For every mask and every threshold, thresholding the thresholded
    mask again with the same threshold gives the same mask. *)
Theorem threshold_mask_idempotent (t : float) (mask : Mat float) :
  threshold_mask t (threshold_mask t mask) = threshold_mask t mask.
Proof.
  unfold threshold_mask. simpl. f_equal.
  rewrite map_map. apply map_ext. intros v.
  apply apply_threshold_idempotent.
Qed.

(* ================================================================== *)
(** ** Compositing *)

Lemma nth_rows {A} (d : A) (f : nat -> nat -> A) (c r s y x : nat) :
  y < r -> x < c ->
  List.nth (y * c + x)
    (List.flat_map (fun y => List.map (fun x => f y x) (List.seq 0 c))
                   (List.seq s r)) d
  = f (s + y) x.
Proof.
  revert s y. induction r as [|r IH]; intros s y Hy Hx; [lia|].
  simpl. destruct y as [|y].
  - simpl. rewrite app_nth1 by (rewrite length_map, length_seq; exact Hx).
    rewrite (nth_indep _ d (f s 0)) by (rewrite length_map, length_seq; exact Hx).
    rewrite (map_nth (fun x => f s x)), seq_nth by exact Hx.
    rewrite Nat.add_0_r. reflexivity.
  - rewrite app_nth2 by (rewrite length_map, length_seq; simpl; lia).
    rewrite length_map, length_seq.
    replace (S y * c + x - c) with (y * c + x) by (simpl; lia).
    rewrite IH by lia. f_equal. lia.
Qed.

(** Reading back what the two loops wrote. *)
Lemma mat_at_fill {A} (d : A) (r c : nat) (f : nat -> nat -> A) (y x : nat) :
  y < r -> x < c -> mat_at d (mat_fill r c f) y x = f y x.
Proof.
  intros Hy Hx. unfold mat_at, mat_fill. simpl.
  apply (nth_rows d f c r 0 y x Hy Hx).
Qed.

Lemma scale_one (b : uchar) :
  saturate_cast_uchar_f (f_mul (float_of_int (int_of_uchar b)) f_one) = b.
Proof. destruct b; vm_compute; reflexivity. Qed.

Lemma scale_zero (b : uchar) :
  saturate_cast_uchar_f (f_mul (float_of_int (int_of_uchar b)) f_zero)
  = Byte.x00.
Proof. destruct b; vm_compute; reflexivity. Qed.

Lemma add_zero_r (b : uchar) :
  saturate_cast_uchar (int_of_uchar b + int_of_uchar Byte.x00) = b.
Proof. destruct b; vm_compute; reflexivity. Qed.

Lemma add_zero_l (b : uchar) :
  saturate_cast_uchar (int_of_uchar Byte.x00 + int_of_uchar b) = b.
Proof. destruct b; vm_compute; reflexivity. Qed.

(** With weight 1 the blend is the first pixel, exactly. *)
Lemma blend_one (fg bg : Vec3b) : blend fg bg f_one = fg.
Proof.
  destruct fg as [[b1 g1] r1], bg as [[b2 g2] r2].
  unfold blend, vec_scale, vec_add.
  replace (f_sub f_one f_one) with f_zero by reflexivity.
  rewrite !scale_one, !scale_zero, !add_zero_r. reflexivity.
Qed.

(** With weight 0 the blend is the second pixel, exactly. *)
Lemma blend_zero (fg bg : Vec3b) : blend fg bg f_zero = bg.
Proof.
  destruct fg as [[b1 g1] r1], bg as [[b2 g2] r2].
  unfold blend, vec_scale, vec_add.
  replace (f_sub f_one f_zero) with f_one by reflexivity.
  rewrite !scale_one, !scale_zero, !add_zero_l. reflexivity.
Qed.

(** C7.  With a mask that is 1.0 everywhere, compositing returns the
    original image, pixel for pixel, in every configuration (in the blur
    branch provided the blur itself succeeds; it throws otherwise).  With a
    mask that is 0.0 everywhere it returns the replacement colour at every
    pixel in the replace-background branch, and the blurred copy at every
    pixel in the blur-background branch. *)
Theorem composite_extremes
        (cv : OpenCV) (filter : background_filter_data)
        (input_frame : Mat Vec3b) (mask : Mat float) :
  (mask_all f_one (rows input_frame) (cols input_frame) mask ->
   match Filter.composite cv filter input_frame mask with
   | Ok output_frame => same_image output_frame input_frame
   | Throw =>
       replace_background filter = false /\
       blur_background filter = true /\
       GaussianBlur_bgr cv input_frame (blur_amount filter * 2 + 1) = Throw
   end) /\
  (mask_all f_zero (rows input_frame) (cols input_frame) mask ->
   (replace_background filter = true ->
    exists output_frame,
      Filter.composite cv filter input_frame mask = Ok output_frame /\
      rows output_frame = rows input_frame /\
      cols output_frame = cols input_frame /\
      forall y x, y < rows input_frame -> x < cols input_frame ->
        mat_at black output_frame y x =
        Filter.bg_color (replacement_color filter)) /\
   (replace_background filter = false ->
    blur_background filter = true ->
    forall blurred,
      GaussianBlur_bgr cv input_frame (blur_amount filter * 2 + 1)
        = Ok blurred ->
      exists output_frame,
        Filter.composite cv filter input_frame mask = Ok output_frame /\
        rows output_frame = rows input_frame /\
        cols output_frame = cols input_frame /\
        forall y x, y < rows input_frame -> x < cols input_frame ->
          mat_at black output_frame y x = mat_at black blurred y x)).
Proof.
  split.
  - intros Hm. unfold Filter.composite.
    destruct (replace_background filter).
    + repeat split. intros y x Hy Hx. simpl in Hy, Hx.
      rewrite mat_at_fill by assumption.
      cbv zeta. rewrite (Hm y x Hy Hx). apply blend_one.
    + destruct (blur_background filter).
      * destruct (GaussianBlur_bgr cv input_frame _) as [blurred|].
        -- repeat split. intros y x Hy Hx. simpl in Hy, Hx.
           rewrite mat_at_fill by assumption.
           cbv zeta. rewrite (Hm y x Hy Hx). apply blend_one.
        -- repeat split.
      * repeat split.
  - intros Hm. split.
    + intros Hr. unfold Filter.composite. rewrite Hr.
      eexists. split; [reflexivity|]. repeat split.
      intros y x Hy Hx. rewrite mat_at_fill by assumption.
      cbv zeta. rewrite (Hm y x Hy Hx). apply blend_zero.
    + intros Hr Hb blurred Hg. unfold Filter.composite.
      rewrite Hr, Hb, Hg.
      eexists. split; [reflexivity|]. repeat split.
      intros y x Hy Hx. rewrite mat_at_fill by assumption.
      cbv zeta. rewrite (Hm y x Hy Hx). apply blend_zero.
Qed.

Lemma mask_all_demo (v : float) :
  mask_all v 1 2 (mkMat 1 2 [v; v]).
Proof.
  intros y x Hy Hx.
  destruct y as [|y]; [| lia].
  destruct x as [|[|x]]; [reflexivity | reflexivity | lia].
Defined.

(** On the two-pixel image of the demo, in the replace-background branch:
    an all-ones mask gives the image back, an all-zeros mask gives green. *)
Lemma composite_extremes_witness :
  match Filter.composite Demo.cv Demo.filter Demo.image
          (mkMat 1 2 [f_one; f_one]) with
  | Ok output_frame => same_image output_frame Demo.image
  | Throw =>
      replace_background Demo.filter = false /\
      blur_background Demo.filter = true /\
      GaussianBlur_bgr Demo.cv Demo.image (blur_amount Demo.filter * 2 + 1)
        = Throw
  end /\
  exists output_frame,
    Filter.composite Demo.cv Demo.filter Demo.image
      (mkMat 1 2 [f_zero; f_zero]) = Ok output_frame /\
    rows output_frame = 1 /\ cols output_frame = 2 /\
    forall y x, y < 1 -> x < 2 ->
      mat_at black output_frame y x = (Byte.x00, Byte.xff, Byte.x00).
Proof.
  split.
  - apply (proj1 (composite_extremes Demo.cv Demo.filter Demo.image
                    (mkMat 1 2 [f_one; f_one]))).
    apply mask_all_demo.
  - apply (proj1 (proj2 (composite_extremes Demo.cv Demo.filter Demo.image
                           (mkMat 1 2 [f_zero; f_zero]))
                    (mask_all_demo f_zero))).
    reflexivity.
Defined.

(* ================================================================== *)
(** ** Frames that pass through *)

Lemma unsupported_no_input (cv : OpenCV) (frame : obs_source_frame) :
  supported (frame_format frame) = false ->
  Filter.to_input_frame cv frame = None.
Proof.
  unfold Filter.to_input_frame, supported.
  destruct (frame_format frame); intros H; try discriminate; reflexivity.
Qed.

(** The frame returned does not depend on the cached dimensions. *)
Lemma video_frame_dimensions (rt : Runtime) (cv : OpenCV)
      (filter : background_filter_data) (w h : Z)
      (frame : obs_source_frame) :
  snd (Filter.background_filter_video rt cv (set_dimensions w h filter) frame)
  = snd (Filter.background_filter_video rt cv filter frame).
Proof.
  unfold Filter.background_filter_video. cbn [model_loaded processing
    set_dimensions].
  destruct (negb (model_loaded filter) || processing filter); [reflexivity|].
  assert (P : forall f1 f2 : background_filter_data,
             inference f1 = inference f2 -> threshold f1 = threshold f2 ->
             blur_background f1 = blur_background f2 ->
             blur_amount f1 = blur_amount f2 ->
             replace_background f1 = replace_background f2 ->
             replacement_color f1 = replacement_color f2 ->
             smooth_edges f1 = smooth_edges f2 ->
             edge_smoothing f1 = edge_smoothing f2 ->
             Filter.process rt cv f1 frame = Filter.process rt cv f2 frame).
  { intros f1 f2 E1 E2 E3 E4 E5 E6 E7 E8.
    unfold Filter.process, Filter.smooth, Filter.composite.
    rewrite E1, E2, E3, E4, E5, E6, E7, E8. reflexivity. }
  match goal with
  | |- snd (match Filter.process rt cv ?f1 frame with _ => _ end) =
       snd (match Filter.process rt cv ?f2 frame with _ => _ end) =>
      rewrite (P f1 f2);
        [ destruct (Filter.process rt cv f2 frame); reflexivity
        | repeat match goal with
                 | |- context [if ?c then _ else _] => destruct c
                 end; reflexivity .. ]
  end.
Qed.

(** What the entry point leaves behind when the frame passes through. *)
Lemma video_pass_through_state (rt : Runtime) (cv : OpenCV)
      (filter : background_filter_data) (frame : obs_source_frame) :
  Filter.process rt cv
    (set_dimensions (frame_width frame) (frame_height frame)
       (set_processing true filter)) frame = Ok frame ->
  Filter.process rt cv (set_processing true filter) frame = Ok frame ->
  let '(filter', frame') :=
    Filter.background_filter_video rt cv filter frame in
  frame' = frame /\
  (filter' = filter \/
   filter' = set_dimensions (frame_width frame) (frame_height frame) filter).
Proof.
  intros H1 H2. unfold Filter.background_filter_video.
  destruct (negb (model_loaded filter) || processing filter) eqn:E.
  - split; [reflexivity | left; reflexivity].
  - apply orb_false_iff in E. destruct E as [_ Ep].
    destruct (negb (width (set_processing true filter) =? frame_width frame)%Z
              || negb (height (set_processing true filter) =?
                       frame_height frame)%Z).
    + rewrite H1. split; [reflexivity | right].
      destruct filter; simpl in *; subst; reflexivity.
    + rewrite H2. split; [reflexivity | left].
      destruct filter; simpl in *; subst; reflexivity.
Qed.

(** C8, as the code has it.  When the format of the frame is none of I420,
    NV12 and RGBA, or when inference fails on the converted frame, the entry
    point returns the frame as it came; the filter is left as it was, except
    that its cached [width] and [height] may have been set to those of the
    frame; and every later frame yields the same output as if the failure
    had not happened. *)
Theorem video_pass_through
        (rt : Runtime) (cv : OpenCV)
        (filter : background_filter_data) (frame : obs_source_frame) :
  supported (frame_format frame) = false \/
  (exists input_frame,
      Filter.to_input_frame cv frame = Some (Ok input_frame) /\
      Inference.RunInference rt (inference filter) input_frame
        (threshold filter) = None) ->
  let '(filter', frame') :=
    Filter.background_filter_video rt cv filter frame in
  frame' = frame /\
  (filter' = filter \/
   filter' = set_dimensions (frame_width frame) (frame_height frame) filter)
  /\
  forall next,
    snd (Filter.background_filter_video rt cv filter' next) =
    snd (Filter.background_filter_video rt cv filter next).
Proof.
  intros H.
  assert (P : forall f, inference f = inference filter ->
                        threshold f = threshold filter ->
                        Filter.process rt cv f frame = Ok frame).
  { intros f Ei Et. unfold Filter.process.
    destruct H as [Hu | (input_frame & Hc & Hi)].
    - rewrite (unsupported_no_input cv frame Hu). reflexivity.
    - rewrite Hc, Ei, Et, Hi. reflexivity. }
  pose proof (video_pass_through_state rt cv filter frame
                (P _ eq_refl eq_refl) (P _ eq_refl eq_refl)) as S.
  destruct (Filter.background_filter_video rt cv filter frame)
    as [filter' frame'].
  destruct S as [Hf [Hs | Hs]]; subst filter'.
  - split; [exact Hf | split; [left; reflexivity | reflexivity]].
  - split; [exact Hf | split; [right; reflexivity |]].
    intros next. apply video_frame_dimensions.
Qed.

(** A BGRA frame, and an RGBA frame on which inference fails, both come
    back as they were. *)
Lemma video_pass_through_witness :
  snd (Filter.background_filter_video (Demo.rt true false) Demo.cv
         Demo.filter (Demo.frame VIDEO_FORMAT_BGRA))
  = Demo.frame VIDEO_FORMAT_BGRA /\
  snd (Filter.background_filter_video (Demo.rt true true) Demo.cv
         Demo.filter (Demo.frame VIDEO_FORMAT_RGBA))
  = Demo.frame VIDEO_FORMAT_RGBA.
Proof.
  split.
  - apply (video_pass_through (Demo.rt true false) Demo.cv Demo.filter
             (Demo.frame VIDEO_FORMAT_BGRA)).
    left. reflexivity.
  - apply (video_pass_through (Demo.rt true true) Demo.cv Demo.filter
             (Demo.frame VIDEO_FORMAT_RGBA)).
    right. eexists. split; reflexivity.
Defined.

(** C8 as stated fails: a frame in an unsupported format comes back
    unchanged, but the filter is not as it was: its cached dimensions are
    now those of the frame. *)
Lemma video_unsupported_changes_filter :
  supported (frame_format (Demo.frame VIDEO_FORMAT_BGRA)) = false /\
  snd (Filter.background_filter_video (Demo.rt true false) Demo.cv
         Demo.filter (Demo.frame VIDEO_FORMAT_BGRA))
  = Demo.frame VIDEO_FORMAT_BGRA /\
  fst (Filter.background_filter_video (Demo.rt true false) Demo.cv
         Demo.filter (Demo.frame VIDEO_FORMAT_BGRA))
  <> Demo.filter /\
  width (fst (Filter.background_filter_video (Demo.rt true false) Demo.cv
                Demo.filter (Demo.frame VIDEO_FORMAT_BGRA))) = 1%Z /\
  width Demo.filter = 0%Z.
Proof.
  repeat split.
  intros H. apply (f_equal width) in H. discriminate H.
Qed.

(* ================================================================== *)
(** ** A model inside an allowed directory that is not loaded *)

(** C10 as stated fails in its last part: a file in the system model
    directory that passes the existence, regular-file and size checks, and
    for which a session could be created, is not loaded when its name holds
    two dots in a row: [ValidatePath] refuses it first. *)
Lemma LoadModel_inside_not_loaded :
  (exists base,
      In base (Inference.allowed_dirs (env_HOME (Demo.rt true false))) /\
      resolves_inside Demo.fs Demo.installed_dotted base) /\
  passes_file_checks Demo.fs Demo.installed_dotted /\
  ort_create_session (Demo.rt true false) Demo.installed_dotted
    (fs_contents Demo.fs Demo.installed_dotted) = Ok Demo.session /\
  fst (run (Inference.LoadModel Demo.fs Demo.ssl (Demo.rt true false)
              Inference.new Demo.installed_dotted))
    = Ok (false, Inference.new).
Proof.
  split; [| split; [| split]].
  - exists Demo.system_models. split.
    + right. right. left. reflexivity.
    + exists (Demo.system_dir ++ ["u2..net.onnx"]), Demo.system_dir.
      split; [exists Demo.installed_dotted; split; reflexivity|].
      split; [exists Demo.system_models; split; reflexivity | reflexivity].
  - split; [reflexivity | split; [reflexivity|]].
    exists 4%N. split; [reflexivity | vm_compute; discriminate].
  - reflexivity.
  - reflexivity.
Qed.

(* ================================================================== *)
(** * Further properties of the code *)

(* ================================================================== *)
(** ** More on the path check *)

(** When the loop accepts, some base of the list is a prefix of the
    path. *)
Lemma ValidatePath_loop_sound (fs : FileSystem) (a : string)
      (allowed : list string) :
  canonical_normal fs ->
  forall tr,
    fst (Security.ValidatePath_loop fs a allowed tr) = Ok true ->
    exists base pc bc,
      In base allowed /\ fs_weakly_canonical fs a = Ok pc /\
      resolves fs base bc /\ is_prefix bc pc = true.
Proof.
  intros Hn. induction allowed as [|b rest IH]; intros tr H.
  - simpl in H. discriminate.
  - simpl in H. revert H. io_unfold.
    destruct (fs_absolute fs b) as [ba|] eqn:Eb; [|simpl; discriminate].
    destruct (fs_weakly_canonical fs a) as [pc|] eqn:Ea;
      [|simpl; discriminate].
    destruct (fs_weakly_canonical fs ba) as [bc|] eqn:Ec;
      [|simpl; discriminate].
    destruct (is_prefix bc pc) eqn:Ep.
    + intros _. exists b, pc, bc.
      repeat split; [left; reflexivity | exists ba; auto | exact Ep].
    + destruct (lexically_relative_outside pc bc Ep (Hn ba bc Ec))
        as [rest' Hrel].
      rewrite Hrel, path_string_dotdot_first, andb_false_r.
      intros H. destruct (IH _ H) as (base & pc' & bc' & Hin & Hpc & Hr & Hp).
      exists base, pc', bc'. repeat split; auto. right. exact Hin.
Qed.

Lemma ValidatePath_sound_core
        (fs : FileSystem) (filepath : string) (allowed : list string)
        (tr : trace) :
  canonical_normal fs ->
  (exists b, fst (Security.ValidatePath fs filepath allowed tr) = Ok b) /\
  (fst (Security.ValidatePath fs filepath allowed tr) = Ok true ->
   str_contains ".." filepath = false /\
   exists base, In base allowed /\ resolves_inside fs filepath base).
Proof.
  intros Hn. unfold Security.ValidatePath, try_catch.
  destruct (str_contains ".." filepath) eqn:Ed.
  - split; [eexists; reflexivity | discriminate].
  - io_unfold.
    destruct (fs_absolute fs filepath) as [a|] eqn:Ea;
      [| split; [eexists; reflexivity | discriminate]].
    pose proof (ValidatePath_loop_sound fs a allowed Hn
                  (tr ++ [EvAbsolute filepath])) as S.
    destruct (Security.ValidatePath_loop fs a allowed
                (tr ++ [EvAbsolute filepath])) as [[b|] tr'];
      (split; [eexists; reflexivity |]); [| discriminate].
    intros H. split; [reflexivity|].
    destruct (S H) as (base & pc & bc & Hin & Hpc & Hr & Hp).
    exists base. split; [exact Hin|].
    exists pc, bc. repeat split; auto. exists a. auto.
Qed.

(** X1.  [ValidatePath] never throws, and when it returns [true] the path
    string holds no [".."] and the path resolves inside one of the allowed
    base directories; in particular nothing is accepted against an empty
    allow-list. *)
Theorem ValidatePath_sound
        (fs : FileSystem) (filepath : string) (allowed : list string)
        (tr : trace) :
  canonical_normal fs ->
  (exists b, fst (Security.ValidatePath fs filepath allowed tr) = Ok b) /\
  (fst (Security.ValidatePath fs filepath allowed tr) = Ok true ->
   str_contains ".." filepath = false /\
   exists base, In base allowed /\ resolves_inside fs filepath base).
Proof. apply ValidatePath_sound_core. Qed.

Lemma ValidatePath_sound_witness :
  str_contains ".." Demo.good = false /\
  exists base, In base [Demo.models] /\
               resolves_inside Demo.fs Demo.good base.
Proof.
  apply (proj2 (ValidatePath_sound Demo.fs Demo.good [Demo.models] []
                  Demo_fs_canonical_normal)).
  reflexivity.
Defined.

(** X3.  For a path without [".."], [IsPathInDirectory] is [ValidatePath]
    with the one-directory allow-list: same result, same calls. *)
Theorem IsPathInDirectory_is_ValidatePath
        (fs : FileSystem) (filepath allowed_dir : string) (tr : trace) :
  str_contains ".." filepath = false ->
  Security.IsPathInDirectory fs filepath allowed_dir tr =
  Security.ValidatePath fs filepath [allowed_dir] tr.
Proof.
  intros H. unfold Security.IsPathInDirectory, Security.ValidatePath,
    try_catch.
  rewrite H. simpl Security.ValidatePath_loop. io_unfold.
  destruct (fs_absolute fs filepath) as [a|]; [| reflexivity].
  destruct (fs_absolute fs allowed_dir) as [d|]; [| reflexivity].
  destruct (fs_weakly_canonical fs a) as [pc|]; [| reflexivity].
  destruct (fs_weakly_canonical fs d) as [dc|]; [| reflexivity].
  destruct (negb (path_empty (lexically_relative pc dc)) &&
            negb (str_contains ".." (path_string (lexically_relative pc dc))));
    reflexivity.
Qed.

Lemma IsPathInDirectory_is_ValidatePath_witness :
  Security.IsPathInDirectory Demo.fs Demo.good Demo.models [] =
  Security.ValidatePath Demo.fs Demo.good [Demo.models] [].
Proof.
  apply (IsPathInDirectory_is_ValidatePath Demo.fs Demo.good Demo.models []).
  reflexivity.
Defined.

(** X4.  When [ValidatePath] does not accept the path, the gate rejects
    it there and then: [VerifyModelIntegrity] is not run, so the calls of
    the gate are exactly those of [ValidatePath]. *)
Theorem authorize_refused_by_path
        (fs : FileSystem) (ssl : OpenSSL) (p : string)
        (allowed : list string) (expected : string) (tr : trace) :
  fst (Security.ValidatePath fs p allowed tr) <> Ok true ->
  Security.authorize fs ssl p allowed expected tr =
  (Ok false, snd (Security.ValidatePath fs p allowed tr)).
Proof.
  intros H. unfold Security.authorize, try_catch, bind.
  destruct (Security.ValidatePath fs p allowed tr) as [[[|]|] tr'];
    simpl in *; [congruence | reflexivity | reflexivity].
Qed.

Lemma authorize_refused_by_path_witness :
  Security.authorize Demo.fs Demo.ssl Demo.evil [Demo.models]
    Demo.good_hash [] =
  (Ok false,
   snd (Security.ValidatePath Demo.fs Demo.evil [Demo.models] [])).
Proof.
  apply (authorize_refused_by_path Demo.fs Demo.ssl Demo.evil
           [Demo.models] Demo.good_hash []).
  vm_compute. discriminate.
Defined.

Lemma ValidatePath_loop_unresolved (fs : FileSystem) (a : string)
      (pre rest : list string) (base : string) :
  (fs_absolute fs base = Throw \/
   exists b, fs_absolute fs base = Ok b /\
             fs_weakly_canonical fs b = Throw) ->
  forall tr,
    fst (Security.ValidatePath_loop fs a (pre ++ base :: rest) tr) =
    match fst (Security.ValidatePath_loop fs a pre tr) with
    | Ok true => Ok true
    | _ => Throw
    end.
Proof.
  intros Hb. induction pre as [|x pre IH]; intros tr.
  - simpl. io_unfold.
    destruct Hb as [E | (b & E & Ec)]; rewrite E; [reflexivity|].
    destruct (fs_weakly_canonical fs a); [rewrite Ec|]; reflexivity.
  - simpl. io_unfold.
    destruct (fs_absolute fs x) as [xa|]; [|reflexivity].
    destruct (fs_weakly_canonical fs a) as [pc|]; [|reflexivity].
    destruct (fs_weakly_canonical fs xa) as [xc|]; [|reflexivity].
    destruct (negb (path_empty (lexically_relative pc xc)) &&
              negb (str_contains ".." (path_string (lexically_relative pc xc))));
      [reflexivity | apply IH].
Qed.

(** X2.  A directory of the allow-list that cannot be resolved ends the
    search: when [absolute] or [weakly_canonical] throws on it,
    [ValidatePath] answers as if the list stopped before that directory, so
    a path inside a directory listed after it is refused. *)
Theorem ValidatePath_unresolved_base
        (fs : FileSystem) (p : string) (pre rest : list string)
        (base : string) (tr : trace) :
  (fs_absolute fs base = Throw \/
   exists b, fs_absolute fs base = Ok b /\
             fs_weakly_canonical fs b = Throw) ->
  fst (Security.ValidatePath fs p (pre ++ base :: rest) tr) =
  fst (Security.ValidatePath fs p pre tr).
Proof.
  intros Hb. unfold Security.ValidatePath, try_catch.
  destruct (str_contains ".." p); [reflexivity|].
  io_unfold.
  destruct (fs_absolute fs p) as [a|]; [|reflexivity].
  pose proof (ValidatePath_loop_unresolved fs a pre rest base Hb
                (tr ++ [EvAbsolute p])) as H.
  destruct (Security.ValidatePath_loop fs a (pre ++ base :: rest)
              (tr ++ [EvAbsolute p])) as [r1 t1].
  destruct (Security.ValidatePath_loop fs a pre (tr ++ [EvAbsolute p]))
    as [[[|]|] t2]; simpl in H; subst r1; reflexivity.
Qed.

(** In the demo the model directory accepts its model, and no longer does
    once a directory that cannot be resolved is listed before it. *)
Lemma ValidatePath_unresolved_base_witness :
  fst (Security.ValidatePath Demo.fs Demo.good [Demo.models] []) = Ok true /\
  fst (Security.ValidatePath Demo.fs Demo.good
         ["/srv/locked"; Demo.models] []) = Ok false.
Proof.
  split; [reflexivity|].
  transitivity (fst (Security.ValidatePath Demo.fs Demo.good [] []));
    [| reflexivity].
  apply (ValidatePath_unresolved_base Demo.fs Demo.good []
           [Demo.models] "/srv/locked" []).
  right. exists "/srv/locked". split; reflexivity.
Defined.

(* ================================================================== *)
(** ** More on the integrity check *)

Lemma str_empty_true (s : string) : str_empty s = true -> s = "".
Proof. destruct s; [reflexivity | discriminate]. Qed.

Lemma hex_byte_lower (b : Byte.byte) :
  str_tolower (Security.hex_byte b) = Security.hex_byte b /\
  str_forall is_lower_hex (Security.hex_byte b) = true.
Proof. destruct b; vm_compute; split; reflexivity. Qed.

Lemma str_tolower_app (a b : string) :
  str_tolower (a ++ b) = (str_tolower a ++ str_tolower b)%string.
Proof. induction a as [|c a IH]; simpl; [| rewrite IH]; reflexivity. Qed.

Lemma str_forall_app (f : ascii -> bool) (a b : string) :
  str_forall f (a ++ b) = str_forall f a && str_forall f b.
Proof.
  induction a as [|c a IH]; simpl; [| rewrite IH, andb_assoc]; reflexivity.
Qed.

(** The digest is 64 lower-case hexadecimal digits. *)
Lemma hex_digest_format (hash : list Byte.byte) :
  String.length (Security.hex_digest hash) = 64 /\
  str_forall is_lower_hex (Security.hex_digest hash) = true /\
  str_tolower (Security.hex_digest hash) = Security.hex_digest hash.
Proof.
  split; [reflexivity|].
  unfold Security.hex_digest.
  induction (List.seq 0 SHA256_DIGEST_LENGTH) as [|i l [IH1 IH2]];
    [split; reflexivity|].
  cbn [List.fold_right].
  destruct (hex_byte_lower (List.nth i hash Byte.x00)) as [T F].
  rewrite str_forall_app, str_tolower_app, T, F, IH1, IH2.
  split; reflexivity.
Qed.

Lemma CalculateFileSHA256_eq (fs : FileSystem) (ssl : OpenSSL)
      (p : string) (tr : trace) :
  Security.CalculateFileSHA256 fs ssl p tr =
  (Ok match fs_contents fs p with
      | Some content => file_digest ssl content
      | None => ""
      end, tr ++ [EvOpenRead p]).
Proof.
  unfold Security.CalculateFileSHA256, try_catch. io_unfold.
  destruct (fs_contents fs p); reflexivity.
Qed.

(** X5.  [CalculateFileSHA256] never throws and opens the file once; for
    a file that cannot be opened it returns the empty string, and for
    every other file a string of exactly 64 lower-case hexadecimal
    digits, which is therefore never mistaken for the error value. *)
Theorem CalculateFileSHA256_format
        (fs : FileSystem) (ssl : OpenSSL) (p : string) (tr : trace) :
  exists s,
    Security.CalculateFileSHA256 fs ssl p tr = (Ok s, tr ++ [EvOpenRead p]) /\
    (fs_contents fs p = None -> s = "") /\
    (fs_contents fs p <> None ->
     String.length s = 64 /\ str_forall is_lower_hex s = true).
Proof.
  rewrite CalculateFileSHA256_eq. eexists. split; [reflexivity|].
  destruct (fs_contents fs p) as [content|].
  - split; [discriminate|]. intros _.
    destruct (hex_digest_format
                (SHA256_Final ssl
                   (Security.read_loop ssl (S (List.length content))
                      (SHA256_Init ssl) content))) as (L & F & _).
    split; assumption.
  - split; [reflexivity | congruence].
Qed.

Lemma VerifyFileChecksum_eq (fs : FileSystem) (ssl : OpenSSL)
      (p expected : string) (tr : trace) :
  str_empty expected = false ->
  fst (Security.VerifyFileChecksum fs ssl p expected tr) =
  Ok match fs_contents fs p with
     | Some content =>
         String.eqb (str_tolower expected) (file_digest ssl content)
     | None => false
     end.
Proof.
  intros He. unfold Security.VerifyFileChecksum. rewrite He.
  unfold bind. rewrite CalculateFileSHA256_eq.
  destruct (fs_contents fs p) as [content|]; [| reflexivity].
  unfold file_digest at 1. rewrite hex_digest_nonempty.
  fold (file_digest ssl content).
  destruct (hex_digest_format
              (SHA256_Final ssl
                 (Security.read_loop ssl (S (List.length content))
                    (SHA256_Init ssl) content))) as (_ & _ & T).
  fold (file_digest ssl content) in T. rewrite T.
  destruct (String.eqb (str_tolower expected) (file_digest ssl content));
    reflexivity.
Qed.

(** X6.  With a non-empty expected hash, [VerifyFileChecksum] returns
    [true] exactly when the file can be read and the expected hash, put in
    lower case, is the digest of its content; it returns [false] otherwise
    and never throws. *)
Theorem VerifyFileChecksum_nonempty
        (fs : FileSystem) (ssl : OpenSSL) (p expected : string)
        (tr : trace) :
  expected <> "" ->
  (exists b, fst (Security.VerifyFileChecksum fs ssl p expected tr) = Ok b)
  /\
  (fst (Security.VerifyFileChecksum fs ssl p expected tr) = Ok true <->
   exists content,
     fs_contents fs p = Some content /\
     str_tolower expected = file_digest ssl content).
Proof.
  intros Hne.
  assert (He : str_empty expected = false)
    by (destruct expected; [congruence | reflexivity]).
  rewrite (VerifyFileChecksum_eq fs ssl p expected tr He).
  split; [eexists; reflexivity|].
  destruct (fs_contents fs p) as [content|].
  - split.
    + intros H. inversion H as [H']. apply String.eqb_eq in H'.
      exists content. split; [reflexivity | exact H'].
    + intros (c & Ec & E). inversion Ec; subst c.
      rewrite E, String.eqb_refl. reflexivity.
  - split; [discriminate | intros (c & Ec & _); discriminate].
Qed.

Lemma VerifyFileChecksum_nonempty_witness :
  fst (Security.VerifyFileChecksum Demo.fs Demo.ssl Demo.good
         Demo.good_hash []) = Ok true <->
  exists content,
    fs_contents Demo.fs Demo.good = Some content /\
    str_tolower Demo.good_hash = file_digest Demo.ssl content.
Proof.
  apply (VerifyFileChecksum_nonempty Demo.fs Demo.ssl Demo.good
           Demo.good_hash []).
  discriminate.
Defined.

(** X7.  The comparison is blind to the case of the expected hash: two
    expected hashes that agree once put in lower case get the same
    answer and cause the same calls. *)
Theorem VerifyFileChecksum_case_insensitive
        (fs : FileSystem) (ssl : OpenSSL) (p h1 h2 : string) (tr : trace) :
  str_tolower h1 = str_tolower h2 ->
  Security.VerifyFileChecksum fs ssl p h1 tr =
  Security.VerifyFileChecksum fs ssl p h2 tr.
Proof.
  intros H.
  assert (He : str_empty h1 = str_empty h2)
    by (destruct h1, h2; simpl in *; congruence).
  unfold Security.VerifyFileChecksum. rewrite He, H. reflexivity.
Qed.

Lemma VerifyFileChecksum_case_insensitive_witness :
  Security.VerifyFileChecksum Demo.fs Demo.ssl Demo.good Demo.good_hash [] =
  Security.VerifyFileChecksum Demo.fs Demo.ssl Demo.good
    (str_tolower Demo.good_hash) [].
Proof.
  apply (VerifyFileChecksum_case_insensitive Demo.fs Demo.ssl Demo.good
           Demo.good_hash (str_tolower Demo.good_hash) []).
  reflexivity.
Defined.

Lemma VerifyModelIntegrity_true_iff_core
        (fs : FileSystem) (ssl : OpenSSL) (p expected : string)
        (tr : trace) :
  fst (Security.VerifyModelIntegrity fs ssl p expected tr) = Ok true <->
  passes_file_checks fs p /\ hash_matches fs ssl p expected.
Proof.
  split; [| intros [Hc Hh]; apply VerifyModelIntegrity_accepts; assumption].
  unfold Security.VerifyModelIntegrity. io_unfold.
  destruct (fs_exists fs p) as [[|]|] eqn:Ee; io_red; try discriminate.
  destruct (fs_is_regular_file fs p) as [[|]|] eqn:Er; io_red;
    try discriminate.
  destruct (fs_file_size fs p) as [n|] eqn:Es; io_red; try discriminate.
  destruct (Security.max_size <? n)%N eqn:El; try discriminate.
  apply N.ltb_ge in El.
  assert (Hc : passes_file_checks fs p).
  { split; [exact Ee | split; [exact Er | exists n; auto]]. }
  destruct (str_empty expected) eqn:Ex; io_red.
  - intros _. split; [exact Hc | left; apply str_empty_true; exact Ex].
  - pose proof (VerifyFileChecksum_eq fs ssl p expected
                  (((tr ++ [EvExists p]) ++ [EvIsRegularFile p]) ++
                   [EvFileSize p]) Ex) as Hv.
    destruct (Security.VerifyFileChecksum fs ssl p expected _)
      as [[[|]|] tr']; simpl in Hv |- *; try discriminate.
    intros _. split; [exact Hc | right].
    destruct (fs_contents fs p) as [content|]; [| discriminate].
    exists content. split; [reflexivity|].
    inversion Hv as [Hb]. symmetry in Hb. apply String.eqb_eq in Hb.
    destruct (hex_digest_format
                (SHA256_Final ssl
                   (Security.read_loop ssl (S (List.length content))
                      (SHA256_Init ssl) content))) as (_ & _ & T).
    fold (file_digest ssl content) in T. rewrite T. exact Hb.
Qed.

(** X8.  [VerifyModelIntegrity] returns [true] exactly when the file
    exists, is a regular file of at most 500 MiB, and the expected hash is
    empty or matches the digest of the content. *)
Theorem VerifyModelIntegrity_true_iff
        (fs : FileSystem) (ssl : OpenSSL) (p expected : string)
        (tr : trace) :
  fst (Security.VerifyModelIntegrity fs ssl p expected tr) = Ok true <->
  passes_file_checks fs p /\ hash_matches fs ssl p expected.
Proof. apply VerifyModelIntegrity_true_iff_core. Qed.

(** X9.  A missing file is refused after the existence query alone, and a
    path that is not a regular file after the two first queries: its size
    is never asked for and it is never opened, whatever the expected
    hash. *)
Theorem VerifyModelIntegrity_missing_or_irregular
        (fs : FileSystem) (ssl : OpenSSL) (p expected : string)
        (tr : trace) :
  (fs_exists fs p = Ok false ->
   Security.VerifyModelIntegrity fs ssl p expected tr =
   (Ok false, tr ++ [EvExists p])) /\
  (fs_exists fs p = Ok true -> fs_is_regular_file fs p = Ok false ->
   Security.VerifyModelIntegrity fs ssl p expected tr =
   (Ok false, tr ++ [EvExists p; EvIsRegularFile p])).
Proof.
  unfold Security.VerifyModelIntegrity. io_unfold. split.
  - intros ->. reflexivity.
  - intros -> ->. io_red. rewrite <- app_assoc. reflexivity.
Qed.

Lemma VerifyModelIntegrity_missing_or_irregular_witness :
  Security.VerifyModelIntegrity Demo.fs Demo.ssl "/opt/models/none.onnx"
    Demo.good_hash [] = (Ok false, [] ++ [EvExists "/opt/models/none.onnx"])
  /\
  Security.VerifyModelIntegrity Demo.fs Demo.ssl Demo.models
    Demo.good_hash [] =
  (Ok false, [] ++ [EvExists Demo.models; EvIsRegularFile Demo.models]).
Proof.
  split.
  - apply (proj1 (VerifyModelIntegrity_missing_or_irregular Demo.fs Demo.ssl
                    "/opt/models/none.onnx" Demo.good_hash [])).
    reflexivity.
  - apply (proj2 (VerifyModelIntegrity_missing_or_irregular Demo.fs Demo.ssl
                    Demo.models Demo.good_hash [])); reflexivity.
Defined.

(* ================================================================== *)
(** ** [SanitizePath] *)

Lemma str_contains_cons (needle : string) (c : ascii) (s : string) :
  str_contains needle (String c s) =
  if String.prefix needle (String c s) then true else str_contains needle s.
Proof. reflexivity. Qed.

(** Where a doubled character [x] can occur in a string. *)
Lemma contains_double (x c d : ascii) (r : string) :
  str_contains (String x (String x "")) (String c (String d r)) =
  (Ascii.eqb c x && Ascii.eqb d x) ||
  str_contains (String x (String x "")) (String d r).
Proof.
  rewrite str_contains_cons. simpl String.prefix.
  destruct (ascii_dec x c) as [<-|Hc].
  - rewrite Ascii.eqb_refl.
    destruct (ascii_dec x d) as [<-|Hd].
    + rewrite Ascii.eqb_refl. destruct r; reflexivity.
    + apply not_eq_sym in Hd. apply Ascii.eqb_neq in Hd. rewrite Hd.
      reflexivity.
  - apply not_eq_sym in Hc. apply Ascii.eqb_neq in Hc. rewrite Hc.
    reflexivity.
Qed.

Lemma contains_double_short (x c : ascii) :
  str_contains (String x (String x "")) (String c "") = false.
Proof.
  rewrite str_contains_cons. simpl String.prefix.
  destruct (ascii_dec x c); reflexivity.
Qed.

Lemma erase_dotdot_cons (c d : ascii) (r : string) :
  Sanitize.erase_dotdot (String c (String d r)) =
  if Ascii.eqb c "." && Ascii.eqb d "." then Some r
  else option_map (String c) (Sanitize.erase_dotdot (String d r)).
Proof. reflexivity. Qed.

Lemma erase_slash_cons (c d : ascii) (r : string) :
  Sanitize.erase_slash (String c (String d r)) =
  if Ascii.eqb c "/" && Ascii.eqb d "/" then Some (String d r)
  else option_map (String c) (Sanitize.erase_slash (String d r)).
Proof. reflexivity. Qed.

Lemma erase_dotdot_none (s : string) :
  Sanitize.erase_dotdot s = None <-> str_contains ".." s = false.
Proof.
  induction s as [|c s IH]; [split; reflexivity|].
  destruct s as [|d r].
  - split; [intros _; apply (contains_double_short "." c) | reflexivity].
  - rewrite erase_dotdot_cons. rewrite (contains_double "." c d r).
    destruct (Ascii.eqb c "." && Ascii.eqb d "."); [split; discriminate|].
    rewrite orb_false_l, <- IH.
    destruct (Sanitize.erase_dotdot (String d r)); simpl;
      split; congruence.
Qed.

Lemma erase_slash_none (s : string) :
  Sanitize.erase_slash s = None <-> str_contains "//" s = false.
Proof.
  induction s as [|c s IH]; [split; reflexivity|].
  destruct s as [|d r].
  - split; [intros _; apply (contains_double_short "/" c) | reflexivity].
  - rewrite erase_slash_cons. rewrite (contains_double "/" c d r).
    destruct (Ascii.eqb c "/" && Ascii.eqb d "/"); [split; discriminate|].
    rewrite orb_false_l, <- IH.
    destruct (Sanitize.erase_slash (String d r)); simpl;
      split; congruence.
Qed.

Lemma erase_dotdot_shorter (s s' : string) :
  Sanitize.erase_dotdot s = Some s' -> String.length s' < String.length s.
Proof.
  revert s'. induction s as [|c s IH]; intros s' H; [discriminate|].
  destruct s as [|d r]; [discriminate|].
  rewrite erase_dotdot_cons in H.
  destruct (Ascii.eqb c "." && Ascii.eqb d ".").
  - inversion H; subst. simpl. lia.
  - destruct (Sanitize.erase_dotdot (String d r)) as [t|]; [| discriminate].
    inversion H; subst. specialize (IH t eq_refl). simpl in *. lia.
Qed.

Lemma erase_slash_shorter (s s' : string) :
  Sanitize.erase_slash s = Some s' -> String.length s' < String.length s.
Proof.
  revert s'. induction s as [|c s IH]; intros s' H; [discriminate|].
  destruct s as [|d r]; [discriminate|].
  rewrite erase_slash_cons in H.
  destruct (Ascii.eqb c "/" && Ascii.eqb d "/").
  - inversion H; subst. simpl. lia.
  - destruct (Sanitize.erase_slash (String d r)) as [t|]; [| discriminate].
    inversion H; subst. specialize (IH t eq_refl). simpl in *. lia.
Qed.

(** With fuel no less than the length, the loop ends because nothing is
    left to erase. *)
Lemma erase_while_done (erase : string -> option string) :
  (forall s s', erase s = Some s' -> String.length s' < String.length s) ->
  forall fuel s, String.length s <= fuel ->
                 erase (Sanitize.erase_while erase fuel s) = None.
Proof.
  intros Hs. induction fuel as [|fuel IH]; intros s Hl.
  - simpl. destruct (erase s) as [s'|] eqn:E; [| reflexivity].
    apply Hs in E. lia.
  - simpl. destruct (erase s) as [s'|] eqn:E; [| exact E].
    apply IH. apply Hs in E. lia.
Qed.

(** What every round keeps is kept by the loop. *)
Lemma erase_while_keeps (erase : string -> option string)
      (P : string -> Prop) :
  (forall s s', erase s = Some s' -> P s -> P s') ->
  forall fuel s, P s -> P (Sanitize.erase_while erase fuel s).
Proof.
  intros Hk. induction fuel as [|fuel IH]; intros s Hp; [exact Hp|].
  simpl. destruct (erase s) as [s'|] eqn:E; [| exact Hp].
  apply IH. exact (Hk s s' E Hp).
Qed.

Lemma erase_dotdot_forall (f : ascii -> bool) (s s' : string) :
  Sanitize.erase_dotdot s = Some s' ->
  str_forall f s = true -> str_forall f s' = true.
Proof.
  revert s'. induction s as [|c s IH]; intros s' H Hf; [discriminate|].
  destruct s as [|d r]; [discriminate|].
  rewrite erase_dotdot_cons in H.
  cbn [str_forall] in Hf. apply andb_true_iff in Hf. destruct Hf as [Hc Hr].
  destruct (Ascii.eqb c "." && Ascii.eqb d ".").
  - inversion H; subst. cbn [str_forall] in Hr.
    apply andb_true_iff in Hr. apply Hr.
  - destruct (Sanitize.erase_dotdot (String d r)) as [t|]; [| discriminate].
    inversion H; subst. cbn [str_forall]. rewrite Hc.
    apply (IH t eq_refl Hr).
Qed.

Lemma erase_slash_forall (f : ascii -> bool) (s s' : string) :
  Sanitize.erase_slash s = Some s' ->
  str_forall f s = true -> str_forall f s' = true.
Proof.
  revert s'. induction s as [|c s IH]; intros s' H Hf; [discriminate|].
  destruct s as [|d r]; [discriminate|].
  rewrite erase_slash_cons in H.
  cbn [str_forall] in Hf. apply andb_true_iff in Hf. destruct Hf as [Hc Hr].
  destruct (Ascii.eqb c "/" && Ascii.eqb d "/").
  - inversion H; subst. exact Hr.
  - destruct (Sanitize.erase_slash (String d r)) as [t|]; [| discriminate].
    inversion H; subst. cbn [str_forall]. rewrite Hc.
    apply (IH t eq_refl Hr).
Qed.

(** Erasing a slash keeps the first character of a non-empty string. *)
Lemma erase_slash_head (c : ascii) (s s' : string) :
  Sanitize.erase_slash (String c s) = Some s' ->
  exists t, s' = String c t.
Proof.
  destruct s as [|d r]; [discriminate|].
  rewrite erase_slash_cons.
  destruct (Ascii.eqb c "/" && Ascii.eqb d "/") eqn:E.
  - intros H. inversion H; subst. apply andb_true_iff in E.
    destruct E as [E1 E2]. apply Ascii.eqb_eq in E1, E2. subst.
    exists r. reflexivity.
  - destruct (Sanitize.erase_slash (String d r)) as [t|]; [| discriminate].
    intros H. inversion H. exists t. reflexivity.
Qed.

(** Erasing one of two slashes brings no two dots together. *)
Lemma erase_slash_no_dotdot (s s' : string) :
  Sanitize.erase_slash s = Some s' ->
  str_contains ".." s = false -> str_contains ".." s' = false.
Proof.
  revert s'. induction s as [|c s IH]; intros s' H Hn; [discriminate|].
  destruct s as [|d r]; [discriminate|].
  rewrite (contains_double "." c d r) in Hn.
  apply orb_false_iff in Hn. destruct Hn as [Hcd Hr].
  pose proof H as H0. rewrite erase_slash_cons in H.
  destruct (Ascii.eqb c "/" && Ascii.eqb d "/").
  - inversion H; subst. exact Hr.
  - destruct (Sanitize.erase_slash (String d r)) as [t|] eqn:Et;
      [| discriminate].
    inversion H; subst.
    destruct (erase_slash_head d r t Et) as [u ->].
    rewrite (contains_double "." c d u), Hcd.
    apply (IH (String d u) eq_refl Hr).
Qed.

Lemma replace_backslash_clean (s : string) :
  str_forall Sanitize.not_backslash (Sanitize.replace_backslash s) = true.
Proof.
  induction s as [|c s IH]; [reflexivity|].
  cbn [Sanitize.replace_backslash str_forall]. rewrite IH, andb_true_r.
  unfold Sanitize.not_backslash. destruct (Ascii.eqb c "\") eqn:E;
    [reflexivity | rewrite E; reflexivity].
Qed.

Lemma SanitizePath_stripped_clean_core (filepath : string) :
  str_forall Sanitize.not_backslash (Sanitize.stripped filepath) = true /\
  str_contains ".." (Sanitize.stripped filepath) = false /\
  str_contains "//" (Sanitize.stripped filepath) = false.
Proof.
  unfold Sanitize.stripped.
  set (s0 := Sanitize.replace_backslash filepath).
  set (s1 := Sanitize.erase_while Sanitize.erase_dotdot (String.length s0) s0).
  assert (B1 : str_forall Sanitize.not_backslash s1 = true).
  { apply (erase_while_keeps Sanitize.erase_dotdot
             (fun s => str_forall Sanitize.not_backslash s = true)).
    - intros s s'. apply erase_dotdot_forall.
    - apply replace_backslash_clean. }
  assert (D1 : str_contains ".." s1 = false).
  { apply erase_dotdot_none.
    apply (erase_while_done _ erase_dotdot_shorter). apply le_n. }
  split; [| split].
  - apply (erase_while_keeps Sanitize.erase_slash
             (fun s => str_forall Sanitize.not_backslash s = true));
      [intros s s'; apply erase_slash_forall | exact B1].
  - apply (erase_while_keeps Sanitize.erase_slash
             (fun s => str_contains ".." s = false));
      [apply erase_slash_no_dotdot | exact D1].
  - apply erase_slash_none.
    apply (erase_while_done _ erase_slash_shorter). apply le_n.
Qed.

(** X10.  Whatever the input, the string [SanitizePath] hands to the
    normalisation holds no backslash, no [".."] and no ["//"]: both erasing
    loops run to completion. *)
Theorem SanitizePath_stripped_clean (filepath : string) :
  str_forall Sanitize.not_backslash (Sanitize.stripped filepath) = true /\
  str_contains ".." (Sanitize.stripped filepath) = false /\
  str_contains "//" (Sanitize.stripped filepath) = false.
Proof. apply SanitizePath_stripped_clean_core. Qed.

Lemma replace_backslash_id (s : string) :
  str_forall Sanitize.not_backslash s = true -> Sanitize.replace_backslash s = s.
Proof.
  induction s as [|c s IH]; [reflexivity|].
  cbn [str_forall Sanitize.replace_backslash]. intros H.
  apply andb_true_iff in H. destruct H as [Hc Hs].
  unfold Sanitize.not_backslash in Hc. apply negb_true_iff in Hc.
  rewrite Hc, (IH Hs). reflexivity.
Qed.

Lemma erase_while_id (erase : string -> option string) (fuel : nat)
      (s : string) :
  erase s = None -> Sanitize.erase_while erase fuel s = s.
Proof. intros H. destruct fuel; simpl; [| rewrite H]; reflexivity. Qed.

(** X11.  A string without backslash, [".."] and ["//"] reaches the
    normalisation untouched, so that stripping twice is stripping once and
    [SanitizePath] of such a string is its normal form. *)
Theorem SanitizePath_clean_input
        (lexically_normal : string -> result string) (filepath : string) :
  (str_forall Sanitize.not_backslash filepath = true ->
   str_contains ".." filepath = false ->
   str_contains "//" filepath = false ->
   Sanitize.stripped filepath = filepath /\
   Sanitize.SanitizePath lexically_normal filepath =
   match lexically_normal filepath with Ok s => s | Throw => "" end) /\
  Sanitize.stripped (Sanitize.stripped filepath) = Sanitize.stripped filepath.
Proof.
  assert (C : forall s, str_forall Sanitize.not_backslash s = true ->
                        str_contains ".." s = false ->
                        str_contains "//" s = false ->
                        Sanitize.stripped s = s).
  { intros s Hb Hd Hs. unfold Sanitize.stripped.
    rewrite (replace_backslash_id s Hb).
    rewrite (erase_while_id _ _ s (proj2 (erase_dotdot_none s) Hd)).
    apply erase_while_id. apply erase_slash_none. exact Hs. }
  split.
  - intros Hb Hd Hs. split; [apply C; assumption|].
    unfold Sanitize.SanitizePath. rewrite (C filepath Hb Hd Hs). reflexivity.
  - destruct (SanitizePath_stripped_clean_core filepath) as (Hb & Hd & Hs).
    apply C; assumption.
Qed.

Lemma SanitizePath_clean_input_witness :
  Sanitize.stripped "models/u2net.onnx" = "models/u2net.onnx" /\
  Sanitize.SanitizePath (fun s => Ok s) "models/u2net.onnx" =
  "models/u2net.onnx".
Proof.
  apply (proj1 (SanitizePath_clean_input (fun s => Ok s)
                  "models/u2net.onnx")); reflexivity.
Defined.

(* ================================================================== *)
(** ** More on the configuration *)

(** X12.  For every threshold other than NaN, [ValidateConfigValues]
    returns [true] exactly when the threshold lies in the unit interval,
    the blur amount in 1..50 and the edge smoothing in 1..10. *)
Theorem ValidateConfigValues_iff_ranges (t : float) (b s : Z) :
  t <> f_nan ->
  Security.ValidateConfigValues t b s = true <->
  in_unit_interval t = true /\ (1 <= b <= 50)%Z /\ (1 <= s <= 10)%Z.
Proof. apply ValidateConfigValues_ranges. Qed.

Lemma ValidateConfigValues_iff_ranges_witness :
  Security.ValidateConfigValues f_half 15 3 = true <->
  in_unit_interval f_half = true /\ (1 <= 15 <= 50)%Z /\ (1 <= 3 <= 10)%Z.
Proof.
  apply (ValidateConfigValues_iff_ranges f_half 15 3). discriminate.
Defined.

(** X13.  When validation fails, the update stores the default triple
    0.5, 15, 3 and still applies the three flags of the settings. *)
Theorem background_filter_update_substitutes
        (filter : background_filter_data) (settings : obs_data) :
  Security.ValidateConfigValues
    (float_of_double (s_threshold settings))
    (int_of_long_long (s_blur_amount settings))
    (int_of_long_long (s_edge_smoothing settings)) = false ->
  let filter' := Filter.background_filter_update filter settings in
  threshold filter' = f_half /\
  blur_amount filter' = 15%Z /\
  edge_smoothing filter' = 3%Z /\
  blur_background filter' = s_blur_background settings /\
  replace_background filter' = s_replace_background settings /\
  smooth_edges filter' = s_smooth_edges settings.
Proof. apply background_filter_update_defaults. Qed.

Lemma background_filter_update_substitutes_witness :
  let filter' :=
    Filter.background_filter_update Demo.filter
      (mkSettings d_half true 0 false 255 false 7) in
  threshold filter' = f_half /\
  blur_amount filter' = 15%Z /\
  edge_smoothing filter' = 3%Z /\
  blur_background filter' = true /\
  replace_background filter' = false /\
  smooth_edges filter' = false.
Proof.
  apply (background_filter_update_substitutes Demo.filter
           (mkSettings d_half true 0 false 255 false 7)).
  reflexivity.
Defined.

Lemma ValidateConfigValues_true (t : float) (b s : Z) :
  Security.ValidateConfigValues t b s = true ->
  (t = f_nan \/ in_unit_interval t = true) /\
  (1 <= b <= 50)%Z /\ (1 <= s <= 10)%Z.
Proof.
  intros V.
  assert (I : (1 <= b <= 50)%Z /\ (1 <= s <= 10)%Z).
  { unfold Security.ValidateConfigValues in V.
    destruct (f_lt t f_zero || f_gt t f_one); [discriminate|].
    destruct (b <? 1)%Z eqn:B1; [discriminate|].
    destruct (50 <? b)%Z eqn:B2; [discriminate|].
    destruct (s <? 1)%Z eqn:S1; [discriminate|].
    destruct (10 <? s)%Z eqn:S2; [discriminate|].
    apply Z.ltb_ge in B1, B2, S1, S2. lia. }
  split; [| exact I].
  destruct t as [sg|sg| |sg m e]; [right|right|left; reflexivity|right];
    (apply ValidateConfigValues_ranges in V;
     [apply V | unfold f_nan; discriminate]).
Qed.

Lemma background_filter_update_in_range_core
        (filter : background_filter_data) (settings : obs_data) :
  let filter' := Filter.background_filter_update filter settings in
  config_in_range filter' /\
  ((threshold filter', blur_amount filter', edge_smoothing filter') =
   (f_half, 15%Z, 3%Z) \/
   (threshold filter', blur_amount filter', edge_smoothing filter') =
   (float_of_double (s_threshold settings),
    int_of_long_long (s_blur_amount settings),
    int_of_long_long (s_edge_smoothing settings))) /\
  Z.odd (blur_amount filter' * 2 + 1) = true /\
  Z.odd (edge_smoothing filter' * 2 + 1) = true /\
  (3 <= blur_amount filter' * 2 + 1 <= 101)%Z /\
  (3 <= edge_smoothing filter' * 2 + 1 <= 21)%Z.
Proof.
  cbv zeta.
  assert (R : config_in_range
                (Filter.background_filter_update filter settings) /\
              ((threshold (Filter.background_filter_update filter settings),
                blur_amount (Filter.background_filter_update filter settings),
                edge_smoothing
                  (Filter.background_filter_update filter settings)) =
               (f_half, 15%Z, 3%Z) \/
               (threshold (Filter.background_filter_update filter settings),
                blur_amount (Filter.background_filter_update filter settings),
                edge_smoothing
                  (Filter.background_filter_update filter settings)) =
               (float_of_double (s_threshold settings),
                int_of_long_long (s_blur_amount settings),
                int_of_long_long (s_edge_smoothing settings)))).
  { unfold Filter.background_filter_update, config_in_range.
    destruct (Security.ValidateConfigValues
                (float_of_double (s_threshold settings))
                (int_of_long_long (s_blur_amount settings))
                (int_of_long_long (s_edge_smoothing settings))) eqn:V;
      cbn [negb threshold blur_amount edge_smoothing].
    - split; [| right; reflexivity].
      apply ValidateConfigValues_true. exact V.
    - split; [| left; reflexivity].
      split; [right; reflexivity | split; lia]. }
  destruct R as [[Ht [Hb He]] Hx].
  split; [exact (conj Ht (conj Hb He)) | split; [exact Hx|]].
  rewrite !(Z.add_comm _ 1), !(Z.mul_comm _ 2), !Z.odd_add_mul_2.
  repeat split; try reflexivity; lia.
Qed.

(** X14.  After every update the blur amount lies in 1..50 and the edge
    smoothing in 1..10, and the threshold lies in the unit interval or is
    NaN; the three values are either all taken from the settings or all
    replaced by the defaults, never mixed; and both blur kernels
    [2 * n + 1] are odd and at least 3. *)
Theorem background_filter_update_in_range
        (filter : background_filter_data) (settings : obs_data) :
  let filter' := Filter.background_filter_update filter settings in
  config_in_range filter' /\
  ((threshold filter', blur_amount filter', edge_smoothing filter') =
   (f_half, 15%Z, 3%Z) \/
   (threshold filter', blur_amount filter', edge_smoothing filter') =
   (float_of_double (s_threshold settings),
    int_of_long_long (s_blur_amount settings),
    int_of_long_long (s_edge_smoothing settings))) /\
  Z.odd (blur_amount filter' * 2 + 1) = true /\
  Z.odd (edge_smoothing filter' * 2 + 1) = true /\
  (3 <= blur_amount filter' * 2 + 1 <= 101)%Z /\
  (3 <= edge_smoothing filter' * 2 + 1 <= 21)%Z.
Proof. apply background_filter_update_in_range_core. Qed.

Lemma background_filter_update_last_wins_core
        (filter : background_filter_data) (s1 s2 : obs_data) :
  Filter.background_filter_update
    (Filter.background_filter_update filter s1) s2 =
  Filter.background_filter_update filter s2 /\
  inference (Filter.background_filter_update filter s1) = inference filter /\
  width (Filter.background_filter_update filter s1) = width filter /\
  height (Filter.background_filter_update filter s1) = height filter /\
  model_loaded (Filter.background_filter_update filter s1)
    = model_loaded filter /\
  processing (Filter.background_filter_update filter s1)
    = processing filter.
Proof.
  unfold Filter.background_filter_update.
  destruct (negb (Security.ValidateConfigValues
                    (float_of_double (s_threshold s1))
                    (int_of_long_long (s_blur_amount s1))
                    (int_of_long_long (s_edge_smoothing s1))));
    destruct (negb (Security.ValidateConfigValues
                      (float_of_double (s_threshold s2))
                      (int_of_long_long (s_blur_amount s2))
                      (int_of_long_long (s_edge_smoothing s2))));
    repeat split.
Qed.

(** X15.  An update overwrites the whole configuration and nothing else:
    the result of two updates is that of the last one, and the model, the
    cached dimensions and the two flags [model_loaded] and [processing]
    are as before. *)
Theorem background_filter_update_last_wins
        (filter : background_filter_data) (s1 s2 : obs_data) :
  Filter.background_filter_update
    (Filter.background_filter_update filter s1) s2 =
  Filter.background_filter_update filter s2 /\
  inference (Filter.background_filter_update filter s1) = inference filter /\
  width (Filter.background_filter_update filter s1) = width filter /\
  height (Filter.background_filter_update filter s1) = height filter /\
  model_loaded (Filter.background_filter_update filter s1)
    = model_loaded filter /\
  processing (Filter.background_filter_update filter s1)
    = processing filter.
Proof. apply background_filter_update_last_wins_core. Qed.

Lemma int_of_long_long_wrap (v k : Z) :
  int_of_long_long (v + k * 2 ^ 32) = int_of_long_long v.
Proof.
  unfold int_of_long_long.
  replace (v + k * 2 ^ 32 + 2 ^ 31)%Z with (v + 2 ^ 31 + k * 2 ^ 32)%Z
    by ring.
  rewrite Z.mod_add by (vm_compute; discriminate). reflexivity.
Qed.

(** X16.  The integer settings are cut to 32 bits before they are
    validated: settings that differ by multiples of [2^32] in the blur
    amount, the edge smoothing and the colour give the same filter. *)
Theorem background_filter_update_wraps
        (filter : background_filter_data) (settings : obs_data)
        (k1 k2 k3 : Z) :
  Filter.background_filter_update filter
    (mkSettings (s_threshold settings) (s_blur_background settings)
       (s_blur_amount settings + k1 * 2 ^ 32)
       (s_replace_background settings)
       (s_replacement_color settings + k2 * 2 ^ 32)
       (s_smooth_edges settings)
       (s_edge_smoothing settings + k3 * 2 ^ 32)) =
  Filter.background_filter_update filter settings.
Proof.
  unfold Filter.background_filter_update.
  cbn [s_threshold s_blur_background s_blur_amount s_replace_background
       s_replacement_color s_smooth_edges s_edge_smoothing].
  rewrite !int_of_long_long_wrap.
  unfold uint32_of_long_long.
  rewrite Z.mod_add by (vm_compute; discriminate). reflexivity.
Qed.

(** X17.  The defaults [background_filter_defaults] declares pass
    [ValidateConfigValues], and the values the update falls back to on a
    failed validation are those very defaults: threshold, blur amount and
    edge smoothing are reset to what a source without settings has. *)
Theorem background_filter_update_fallback_is_default
        (filter : background_filter_data) (settings : obs_data) :
  Security.ValidateConfigValues
    (float_of_double (s_threshold background_filter_defaults))
    (int_of_long_long (s_blur_amount background_filter_defaults))
    (int_of_long_long (s_edge_smoothing background_filter_defaults))
  = true /\
  (Security.ValidateConfigValues
     (float_of_double (s_threshold settings))
     (int_of_long_long (s_blur_amount settings))
     (int_of_long_long (s_edge_smoothing settings)) = false ->
   let f := Filter.background_filter_update filter settings in
   (threshold f, blur_amount f, edge_smoothing f) =
   (float_of_double (s_threshold background_filter_defaults),
    int_of_long_long (s_blur_amount background_filter_defaults),
    int_of_long_long (s_edge_smoothing background_filter_defaults))).
Proof.
  split; [reflexivity|].
  intros H. cbv zeta. unfold Filter.background_filter_update.
  rewrite H. reflexivity.
Qed.

Lemma background_filter_update_fallback_is_default_witness :
  let f :=
    Filter.background_filter_update Demo.filter
      (mkSettings d_half false 51 true 0 true 3) in
  (threshold f, blur_amount f, edge_smoothing f) =
  (float_of_double (s_threshold background_filter_defaults),
   int_of_long_long (s_blur_amount background_filter_defaults),
   int_of_long_long (s_edge_smoothing background_filter_defaults)).
Proof.
  apply (proj2 (background_filter_update_fallback_is_default Demo.filter
                  (mkSettings d_half false 51 true 0 true 3))).
  reflexivity.
Defined.

(* ================================================================== *)
(** ** The replacement colour *)

Lemma int_of_uchar_range (b : uchar) : (0 <= int_of_uchar b < 256)%Z.
Proof. destruct b; (split; [vm_compute; discriminate | reflexivity]). Qed.

Lemma uchar_of_int_of_uchar (b : uchar) : uchar_of_int (int_of_uchar b) = b.
Proof. destruct b; reflexivity. Qed.

Lemma low_byte (x : Z) : Z.land x 255 = (x mod 256)%Z.
Proof. apply (Z.land_ones x 8). lia. Qed.

(** X18.  [bg_color] reads the three low bytes of the colour word, lowest
    first, as the blue, green and red channel, and ignores the top byte. *)
Theorem bg_color_pack (b0 b1 b2 b3 : uchar) :
  Filter.bg_color (pack_color b0 b1 b2 b3) = (b0, b1, b2).
Proof.
  pose proof (int_of_uchar_range b0) as R0.
  pose proof (int_of_uchar_range b1) as R1.
  pose proof (int_of_uchar_range b2) as R2.
  pose proof (int_of_uchar_range b3) as R3.
  unfold Filter.bg_color, pack_color.
  rewrite !low_byte, Z.shiftr_0_r, !Z.shiftr_div_pow2 by lia.
  set (a0 := int_of_uchar b0) in *. set (a1 := int_of_uchar b1) in *.
  set (a2 := int_of_uchar b2) in *. set (a3 := int_of_uchar b3) in *.
  change (2 ^ 8)%Z with 256%Z. change (2 ^ 16)%Z with 65536%Z.
  assert (E0 : ((a0 + 256 * a1 + 65536 * a2 + 16777216 * a3) mod 256 = a0)%Z).
  { symmetry.
    apply (Z.mod_unique_pos _ 256 (a1 + 256 * a2 + 65536 * a3) a0); lia. }
  assert (D1 : ((a0 + 256 * a1 + 65536 * a2 + 16777216 * a3) / 256
                = a1 + 256 * a2 + 65536 * a3)%Z).
  { symmetry. apply (Z.div_unique_pos _ 256 _ a0); lia. }
  assert (E1 : ((a1 + 256 * a2 + 65536 * a3) mod 256 = a1)%Z).
  { symmetry. apply (Z.mod_unique_pos _ 256 (a2 + 256 * a3) a1); lia. }
  assert (D2 : ((a0 + 256 * a1 + 65536 * a2 + 16777216 * a3) / 65536
                = a2 + 256 * a3)%Z).
  { symmetry. apply (Z.div_unique_pos _ 65536 _ (a0 + 256 * a1)); lia. }
  assert (E2 : ((a2 + 256 * a3) mod 256 = a2)%Z).
  { symmetry. apply (Z.mod_unique_pos _ 256 a3 a2); lia. }
  rewrite E0, D1, E1, D2, E2.
  subst a0 a1 a2. rewrite !uchar_of_int_of_uchar. reflexivity.
Qed.

(* ================================================================== *)
(** ** The values of the thresholded mask *)

Lemma f_gt_not_nan (v t : float) : f_gt v t = true -> v <> f_nan.
Proof.
  intros H E. subst v. unfold f_gt, SFltb in H.
  destruct t; discriminate.
Qed.

Lemma map_const {A B} (c : B) (l : list A) :
  List.map (fun _ => c) l = List.repeat c (List.length l).
Proof. induction l as [|a l IH]; simpl; [| rewrite IH]; reflexivity. Qed.

(** X19.  The thresholded map [Postprocess] builds has one value per
    element of the output; each value is 0.0 or exceeds the threshold, and
    none is NaN; with a NaN threshold the whole map is 0.0. *)
Theorem sigmoid_threshold_values
        (rt : Runtime) (output : list float) (n : nat) (t : float) :
  List.length (Inference.sigmoid_threshold rt output n t) = n /\
  Forall (fun v => v = f_zero \/ (f_gt v t = true /\ v <> f_nan))
         (Inference.sigmoid_threshold rt output n t) /\
  (t = f_nan ->
   Inference.sigmoid_threshold rt output n t = List.repeat f_zero n).
Proof.
  unfold Inference.sigmoid_threshold. split; [| split].
  - rewrite length_map, length_seq. reflexivity.
  - apply Forall_map, Forall_forall. intros i _.
    unfold Inference.apply_threshold.
    destruct (f_gt _ t) eqn:E; [right | left; reflexivity].
    split; [exact E | exact (f_gt_not_nan _ t E)].
  - intros ->.
    transitivity (List.repeat f_zero (List.length (List.seq 0 n)));
      [| rewrite length_seq; reflexivity].
    rewrite <- map_const. apply map_ext. intros i. reflexivity.
Qed.

(* ================================================================== *)
(** ** More on compositing *)

Lemma length_rows {A} (f : nat -> nat -> A) (c r s : nat) :
  List.length
    (List.flat_map (fun y => List.map (fun x => f y x) (List.seq 0 c))
                   (List.seq s r)) = r * c.
Proof.
  revert s. induction r as [|r IH]; intros s; [reflexivity|].
  simpl. rewrite length_app, length_map, length_seq, IH. reflexivity.
Qed.

(** X20.  Whenever compositing returns an image, it has the rows and
    columns of the input, and in the two blending branches exactly rows
    times columns pixels; with [replace_background] set it always returns,
    and the blur is not consulted. *)
Theorem composite_shape
        (cv : OpenCV) (filter : background_filter_data)
        (input_frame : Mat Vec3b) (mask : Mat float) :
  (forall output_frame,
      Filter.composite cv filter input_frame mask = Ok output_frame ->
      rows output_frame = rows input_frame /\
      cols output_frame = cols input_frame /\
      (replace_background filter = true \/ blur_background filter = true ->
       List.length (data output_frame)
       = rows input_frame * cols input_frame)) /\
  (replace_background filter = true ->
   forall cv',
     Filter.composite cv' filter input_frame mask =
     Filter.composite cv filter input_frame mask /\
     Filter.composite cv filter input_frame mask <> Throw).
Proof.
  unfold Filter.composite. split.
  - intros out. destruct (replace_background filter).
    + intros H. inversion H; subst. cbn [rows cols data mat_fill].
      repeat split. intros _. apply length_rows.
    + destruct (blur_background filter).
      * destruct (GaussianBlur_bgr cv input_frame _); [| discriminate].
        intros H. inversion H; subst. cbn [rows cols data mat_fill].
        repeat split. intros _. apply length_rows.
      * intros H. inversion H; subst. repeat split.
        intros [F | F]; discriminate.
  - intros -> cv'. split; [reflexivity | discriminate].
Qed.

Lemma composite_shape_witness :
  Filter.composite cv_blur_throws Demo.filter Demo.image
    (mkMat 1 2 [f_half; f_half]) =
  Filter.composite Demo.cv Demo.filter Demo.image
    (mkMat 1 2 [f_half; f_half]) /\
  Filter.composite Demo.cv Demo.filter Demo.image
    (mkMat 1 2 [f_half; f_half]) <> Throw.
Proof.
  apply (proj2 (composite_shape Demo.cv Demo.filter Demo.image
                  (mkMat 1 2 [f_half; f_half])) eq_refl cv_blur_throws).
Defined.

(* ================================================================== *)
(** ** More on loading *)

Lemma LoadModel_outcome_core
      (fs : FileSystem) (ssl : OpenSSL) (rt : Runtime)
      (mi : ModelInference) (p : string) (tr : trace) :
  exists b mi',
    fst (Inference.LoadModel fs ssl rt mi p tr) = Ok (b, mi') /\
    (b = false -> model_loaded_ mi' = model_loaded_ mi) /\
    (b = false ->
     HAVE_ONNXRUNTIME rt = false \/
     fst (Security.authorize fs ssl p
            (Inference.allowed_dirs (env_HOME rt)) "" tr) <> Ok true ->
     mi' = mi) /\
    (b = true -> model_loaded_ mi' = true /\ has_session mi' = true).
Proof.
  destruct (HAVE_ONNXRUNTIME rt) eqn:Hh.
  - rewrite (LoadModel_gate fs ssl rt mi p tr Hh).
    destruct (Security.authorize fs ssl p
                (Inference.allowed_dirs (env_HOME rt)) "" tr)
      as [[[|]|] tr'] eqn:Ea; cbn [fst].
    + destruct (open_session_result rt p (fs_contents fs p) mi)
        as (_ & Ht & Hf).
      destruct (Inference.open_session rt p (fs_contents fs p) mi)
        as [b mi'] eqn:Eo. cbn [fst snd] in *.
      exists b, mi'. split; [reflexivity|]. split; [exact Hf|].
      split; [| exact Ht].
      intros _ [H | H]; [discriminate | congruence].
    + exists false, mi. repeat split; discriminate.
    + exists false, mi. repeat split; discriminate.
  - unfold Inference.LoadModel. rewrite Hh.
    exists false, mi. repeat split; discriminate.
Qed.

(** X21.  [LoadModel] never throws past its boundary.  When it returns
    [false], [model_loaded_] is as before, and the whole object is as
    before if the build has no inference engine or the gate refused the
    path; when it returns [true] the object is marked loaded and owns a
    session. *)
Theorem LoadModel_outcome
        (fs : FileSystem) (ssl : OpenSSL) (rt : Runtime)
        (mi : ModelInference) (p : string) (tr : trace) :
  exists b mi',
    fst (Inference.LoadModel fs ssl rt mi p tr) = Ok (b, mi') /\
    (b = false -> model_loaded_ mi' = model_loaded_ mi) /\
    (b = false ->
     HAVE_ONNXRUNTIME rt = false \/
     fst (Security.authorize fs ssl p
            (Inference.allowed_dirs (env_HOME rt)) "" tr) <> Ok true ->
     mi' = mi) /\
    (b = true -> model_loaded_ mi' = true /\ has_session mi' = true).
Proof. apply LoadModel_outcome_core. Qed.

(** X22.  A model is loaded only from inside an allowed directory: when
    [LoadModel] returns [true], the build has the inference engine, the
    path holds no [".."] and resolves inside one of the directories of the
    allow-list, the file exists, is regular and within the size cap, and
    the session was created from the bytes of that file; the object
    returned is the one the session set up, marked loaded. *)
Theorem LoadModel_sound
        (fs : FileSystem) (ssl : OpenSSL) (rt : Runtime)
        (mi mi' : ModelInference) (p : string) (tr : trace) :
  canonical_normal fs ->
  fst (Inference.LoadModel fs ssl rt mi p tr) = Ok (true, mi') ->
  HAVE_ONNXRUNTIME rt = true /\
  str_contains ".." p = false /\
  (exists base,
      In base (Inference.allowed_dirs (env_HOME rt)) /\
      resolves_inside fs p base) /\
  passes_file_checks fs p /\
  (exists session,
      ort_create_session rt p (fs_contents fs p) = Ok session) /\
  Inference.open_session rt p (fs_contents fs p) mi = (true, mi') /\
  model_loaded_ mi' = true /\ has_session mi' = true.
Proof.
  intros Hn H.
  destruct (HAVE_ONNXRUNTIME rt) eqn:Hh;
    [| unfold Inference.LoadModel in H; rewrite Hh in H; discriminate].
  rewrite (LoadModel_gate fs ssl rt mi p tr Hh) in H.
  pose proof (authorize_of_parts fs ssl p
                (Inference.allowed_dirs (env_HOME rt)) "" tr) as Ha.
  destruct (Security.authorize fs ssl p
              (Inference.allowed_dirs (env_HOME rt)) "" tr)
    as [[[|]|] tr0]; cbn [fst] in H, Ha; try discriminate.
  pose proof (ValidatePath_sound_core fs p
                (Inference.allowed_dirs (env_HOME rt)) tr Hn) as [_ Hs].
  destruct (Security.ValidatePath fs p _ tr) as [[[|]|] tr'];
    try discriminate.
  destruct (Hs eq_refl) as [Hd Hin].
  pose proof (VerifyModelIntegrity_true_iff_core fs ssl p "" tr') as I.
  destruct (fst (Security.VerifyModelIntegrity fs ssl p "" tr'))
    as [[|]|]; try discriminate.
  destruct (proj1 I eq_refl) as [Hc _].
  inversion H as [Ho].
  destruct (open_session_result rt p (fs_contents fs p) mi)
    as (Hiff & Ht & _).
  rewrite Ho in Hiff, Ht. cbn [fst snd] in Hiff, Ht.
  destruct (proj1 Hiff eq_refl) as (session & Es & _).
  destruct (Ht eq_refl) as [Hl Hse].
  split; [reflexivity|]. split; [exact Hd|]. split; [exact Hin|].
  split; [exact Hc|]. split; [exists session; exact Es|].
  split; [reflexivity|]. split; assumption.
Qed.

Lemma LoadModel_sound_witness :
  HAVE_ONNXRUNTIME (Demo.rt true false) = true /\
  str_contains ".." Demo.installed = false /\
  (exists base,
      In base (Inference.allowed_dirs (env_HOME (Demo.rt true false))) /\
      resolves_inside Demo.fs Demo.installed base) /\
  passes_file_checks Demo.fs Demo.installed /\
  (exists session,
      ort_create_session (Demo.rt true false) Demo.installed
        (fs_contents Demo.fs Demo.installed) = Ok session) /\
  Inference.open_session (Demo.rt true false) Demo.installed
    (fs_contents Demo.fs Demo.installed) Inference.new =
  (true, snd (Inference.open_session (Demo.rt true false) Demo.installed
                (fs_contents Demo.fs Demo.installed) Inference.new)) /\
  model_loaded_
    (snd (Inference.open_session (Demo.rt true false) Demo.installed
            (fs_contents Demo.fs Demo.installed) Inference.new)) = true /\
  has_session
    (snd (Inference.open_session (Demo.rt true false) Demo.installed
            (fs_contents Demo.fs Demo.installed) Inference.new)) = true.
Proof.
  apply (LoadModel_sound Demo.fs Demo.ssl (Demo.rt true false)
           Inference.new
           (snd (Inference.open_session (Demo.rt true false) Demo.installed
                   (fs_contents Demo.fs Demo.installed) Inference.new))
           Demo.installed [] Demo_fs_canonical_normal).
  vm_compute. reflexivity.
Defined.

(** X23.  Inference is refused on an object that [LoadModel] did not
    load: after a [LoadModel] that returned [false] on a fresh object,
    whatever it left assigned in the object, [RunInference] returns
    [false] for every frame and threshold, in a build with the inference
    engine. *)
Theorem RunInference_after_failed_load
        (fs : FileSystem) (ssl : OpenSSL) (rt : Runtime)
        (mi' : ModelInference) (p : string) (tr : trace)
        (input_frame : Mat Vec3b) (t : float) :
  HAVE_ONNXRUNTIME rt = true ->
  fst (Inference.LoadModel fs ssl rt Inference.new p tr) = Ok (false, mi') ->
  Inference.RunInference rt mi' input_frame t = None.
Proof.
  intros Hh H.
  destruct (LoadModel_outcome_core fs ssl rt Inference.new p tr)
    as (b & m & E & Hf & _).
  rewrite E in H. inversion H; subst.
  unfold Inference.RunInference. rewrite Hh, (Hf eq_refl). reflexivity.
Qed.

(** After a load that failed while the session described its input, the
    object owns a session and an input name, and inference is refused. *)
Lemma RunInference_after_failed_load_witness :
  Inference.RunInference (Demo.rt true false)
    (Inference.push_input_name "input"
       (Inference.with_session Inference.new)) Demo.image f_half
  = None.
Proof.
  apply (RunInference_after_failed_load
           (with_contents Demo.fs (fun _ => Some [Byte.xba])) Demo.ssl
           (Demo.rt true false) _ Demo.installed [] Demo.image f_half).
  - reflexivity.
  - vm_compute. reflexivity.
Defined.

(* ================================================================== *)
(** ** More on the per-frame entry point *)

(** X24.  Processing a frame never changes the configuration, the model or
    the flags [model_loaded] and [processing] of the filter: the filter
    afterwards is the filter before, up to the cached dimensions, which
    are then those of the frame. *)
Theorem video_keeps_filter
        (rt : Runtime) (cv : OpenCV)
        (filter : background_filter_data) (frame : obs_source_frame) :
  fst (Filter.background_filter_video rt cv filter frame) = filter \/
  fst (Filter.background_filter_video rt cv filter frame) =
  set_dimensions (frame_width frame) (frame_height frame) filter.
Proof.
  unfold Filter.background_filter_video.
  destruct (negb (model_loaded filter) || processing filter) eqn:E;
    [left; reflexivity|].
  apply orb_false_iff in E. destruct E as [_ Ep].
  destruct (negb (width (set_processing true filter) =? frame_width frame)%Z
            || negb (height (set_processing true filter) =?
                     frame_height frame)%Z).
  - right. destruct (Filter.process rt cv _ frame);
      destruct filter; simpl in *; subst; reflexivity.
  - left. destruct (Filter.process rt cv _ frame);
      destruct filter; simpl in *; subst; reflexivity.
Qed.

Ltac frame_rest :=
  split; [reflexivity|]; split; [reflexivity|]; split; [reflexivity|];
  split; [left; reflexivity|]; split; [reflexivity|];
  intros ? ? ? ?; split; [reflexivity|];
  intros ? ?; split; [reflexivity|]; intros ? ? ?; reflexivity.

Ltac frame_untouched :=
  split; [reflexivity | split; [reflexivity | split; [reflexivity |
    left; reflexivity]]].

Lemma write_back_frame (cv : OpenCV) (frame frame' : obs_source_frame)
      (output_frame : Mat Vec3b) :
  Filter.write_back cv frame output_frame = Ok frame' ->
  frame_width frame' = frame_width frame /\
  frame_height frame' = frame_height frame /\
  frame_format frame' = frame_format frame /\
  (frame' = frame \/
   exists code bytes,
     cvtColor_out cv code output_frame = Ok bytes /\
     frame_data0 frame' = memcpy (frame_data0 frame) bytes).
Proof.
  unfold Filter.write_back.
  destruct (frame_format frame) eqn:F;
    try (intros H; inversion H; subst;
         split; [reflexivity | split; [reflexivity | split; [exact F |
           left; reflexivity]]]);
    match goal with
    | |- context [cvtColor_out cv ?c output_frame] =>
        destruct (cvtColor_out cv c output_frame) as [bytes|] eqn:E;
          [| discriminate];
          intros H; inversion H; subst; cbn;
          (split; [reflexivity | split; [reflexivity | split; [reflexivity |
             right; exists c, bytes; split; [exact E | reflexivity]]]])
    end.
Qed.

Lemma process_ignores_flags (rt : Runtime) (cv : OpenCV)
      (filter : background_filter_data) (frame : obs_source_frame)
      (w h : Z) (b : bool) :
  Filter.process rt cv (set_dimensions w h (set_processing b filter)) frame
  = Filter.process rt cv filter frame /\
  Filter.process rt cv (set_processing b filter) frame
  = Filter.process rt cv filter frame.
Proof. split; reflexivity. Qed.

(** The frame returned, in terms of the body of the [try] block. *)
Lemma video_frame_eq (rt : Runtime) (cv : OpenCV)
      (filter : background_filter_data) (frame : obs_source_frame) :
  snd (Filter.background_filter_video rt cv filter frame) =
  if negb (model_loaded filter) || processing filter then frame
  else match Filter.process rt cv filter frame with
       | Ok frame' => frame'
       | Throw => frame
       end.
Proof.
  unfold Filter.background_filter_video.
  destruct (negb (model_loaded filter) || processing filter);
    [reflexivity|].
  destruct (negb (width (set_processing true filter) =? frame_width frame)%Z
            || negb (height (set_processing true filter) =?
                     frame_height frame)%Z).
  - rewrite (proj1 (process_ignores_flags rt cv filter frame _ _ true)).
    destruct (Filter.process rt cv filter frame); reflexivity.
  - rewrite (proj2 (process_ignores_flags rt cv filter frame 0 0 true)).
    destruct (Filter.process rt cv filter frame); reflexivity.
Qed.

(** X25.  The frame returned has the width, height and format of the
    frame received.  Its buffer is changed only when every step succeeded
    (conversion to BGR, inference, smoothing, compositing, conversion
    back), and then it is overwritten, from its start, with the bytes of
    that conversion back; when any step throws, the frame comes back as it
    was. *)
Theorem video_frame_shape
        (rt : Runtime) (cv : OpenCV)
        (filter : background_filter_data) (frame : obs_source_frame) :
  let frame' := snd (Filter.background_filter_video rt cv filter frame) in
  frame_width frame' = frame_width frame /\
  frame_height frame' = frame_height frame /\
  frame_format frame' = frame_format frame /\
  (frame' = frame \/
   exists input_frame mask mask' output_frame code bytes,
     Filter.to_input_frame cv frame = Some (Ok input_frame) /\
     Inference.RunInference rt (inference filter) input_frame
       (threshold filter) = Some mask /\
     Filter.smooth cv filter mask = Ok mask' /\
     Filter.composite cv filter input_frame mask' = Ok output_frame /\
     Filter.write_back cv frame output_frame = Ok frame' /\
     cvtColor_out cv code output_frame = Ok bytes /\
     frame_data0 frame' = memcpy (frame_data0 frame) bytes) /\
  (Filter.to_input_frame cv frame = Some Throw -> frame' = frame) /\
  (forall input_frame mask,
      Filter.to_input_frame cv frame = Some (Ok input_frame) ->
      Inference.RunInference rt (inference filter) input_frame
        (threshold filter) = Some mask ->
      (Filter.smooth cv filter mask = Throw -> frame' = frame) /\
      (forall mask',
          Filter.smooth cv filter mask = Ok mask' ->
          (Filter.composite cv filter input_frame mask' = Throw ->
           frame' = frame) /\
          (forall output_frame,
              Filter.composite cv filter input_frame mask' = Ok output_frame ->
              Filter.write_back cv frame output_frame = Throw ->
              frame' = frame))).
Proof.
  cbv zeta. rewrite video_frame_eq.
  destruct (negb (model_loaded filter) || processing filter).
  { split; [reflexivity|]. split; [reflexivity|]. split; [reflexivity|].
    split; [left; reflexivity|]. split; [reflexivity|].
    intros input mask _ _. split; [reflexivity|].
    intros mask' _. split; [reflexivity|]. reflexivity. }
  unfold Filter.process.
  destruct (Filter.to_input_frame cv frame) as [[input|]|] eqn:I.
  - destruct (Inference.RunInference rt (inference filter) input
                (threshold filter)) as [mask|] eqn:R.
    + destruct (Filter.smooth cv filter mask) as [mask'|] eqn:Sm.
      * destruct (Filter.composite cv filter input mask') as [out|] eqn:Co.
        -- destruct (Filter.write_back cv frame out) as [fr|] eqn:W.
           ++ destruct (write_back_frame cv frame fr out W)
                as (Hw & Hh & Hf & Hd).
              split; [exact Hw|]. split; [exact Hh|]. split; [exact Hf|].
              split.
              ** destruct Hd as [E | (code & bytes & Ec & Ed)];
                   [left; exact E|].
                 right. exists input, mask, mask', out, code, bytes.
                 split; [reflexivity|]. split; [exact R|].
                 split; [exact Sm|]. split; [exact Co|].
                 split; [exact W|]. split; [exact Ec | exact Ed].
              ** split; [discriminate|].
                 intros i m Ei Em.
                 split; [intros; congruence|]. intros m' Es.
                 split; [intros; congruence|]. intros o Eo Ew.
                 congruence.
           ++ frame_rest.
        -- frame_rest.
      * frame_rest.
    + frame_rest.
  - frame_rest.
  - frame_rest.
Qed.

Lemma video_stream_unloaded_core
        (rt : Runtime) (cv : OpenCV)
        (filter : background_filter_data) (frames : list obs_source_frame) :
  model_loaded filter = false ->
  video_stream rt cv filter frames = (filter, frames).
Proof.
  intros H. induction frames as [|frame rest IH]; [reflexivity|].
  cbn [video_stream]. unfold Filter.background_filter_video.
  rewrite H. cbn [negb orb]. rewrite IH. reflexivity.
Qed.

(** X26.  While no model is loaded the filter is transparent: whatever
    frames the host sends, each one comes back as it was and the filter
    does not change. *)
Theorem video_stream_unloaded
        (rt : Runtime) (cv : OpenCV)
        (filter : background_filter_data) (frames : list obs_source_frame) :
  model_loaded filter = false ->
  video_stream rt cv filter frames = (filter, frames).
Proof. apply video_stream_unloaded_core. Qed.

Lemma video_stream_unloaded_witness :
  video_stream (Demo.rt true false) Demo.cv
    (set_dimensions 0 0
       (mkFilter Inference.new f_half false 15 true 0 true 3 0 0 0
                 false false))
    [Demo.frame VIDEO_FORMAT_RGBA; Demo.frame VIDEO_FORMAT_I420] =
  (set_dimensions 0 0
     (mkFilter Inference.new f_half false 15 true 0 true 3 0 0 0
               false false),
   [Demo.frame VIDEO_FORMAT_RGBA; Demo.frame VIDEO_FORMAT_I420]).
Proof.
  apply (video_stream_unloaded (Demo.rt true false) Demo.cv _
           [Demo.frame VIDEO_FORMAT_RGBA; Demo.frame VIDEO_FORMAT_I420]).
  reflexivity.
Defined.



(* ================================================================== *)
(** ** The gate, the hashing loop and the build without the engine *)

(** X28.  The gate is sound for every expected hash: when it authorizes,
    the path holds no [".."] and resolves inside an allowed directory, the
    file exists, is regular and within the size cap, and the expected hash
    is empty or matches the digest of the content. *)
Theorem authorize_sound
        (fs : FileSystem) (ssl : OpenSSL) (p : string)
        (allowed : list string) (expected : string) (tr : trace) :
  canonical_normal fs ->
  fst (Security.authorize fs ssl p allowed expected tr) = Ok true ->
  str_contains ".." p = false /\
  (exists base, In base allowed /\ resolves_inside fs p base) /\
  passes_file_checks fs p /\
  hash_matches fs ssl p expected.
Proof.
  intros Hn H. rewrite authorize_of_parts in H.
  pose proof (ValidatePath_sound_core fs p allowed tr Hn) as [_ Hs].
  destruct (Security.ValidatePath fs p allowed tr) as [[[|]|] tr'];
    try discriminate.
  destruct (Hs eq_refl) as [Hd Hin].
  pose proof (VerifyModelIntegrity_true_iff_core fs ssl p expected tr') as I.
  destruct (fst (Security.VerifyModelIntegrity fs ssl p expected tr'))
    as [[|]|]; try discriminate.
  destruct (proj1 I eq_refl) as [Hc Hh].
  split; [exact Hd|]. split; [exact Hin|]. split; assumption.
Qed.

Lemma authorize_sound_witness :
  str_contains ".." Demo.good = false /\
  (exists base, In base [Demo.models] /\
                resolves_inside Demo.fs Demo.good base) /\
  passes_file_checks Demo.fs Demo.good /\
  hash_matches Demo.fs Demo.ssl Demo.good Demo.good_hash.
Proof.
  apply (authorize_sound Demo.fs Demo.ssl Demo.good [Demo.models]
           Demo.good_hash [] Demo_fs_canonical_normal).
  vm_compute. reflexivity.
Defined.

Lemma firstn_nil_inv {A} (n : nat) (l : list A) :
  0 < n -> firstn n l = [] -> l = [].
Proof.
  intros Hn H. destruct n as [|n]; [lia|].
  destruct l; [reflexivity | discriminate].
Qed.

Lemma read_loop_chunks (ssl : OpenSSL) (fuel : nat) :
  forall (ctx : SHA256_CTX ssl) (stream : list Byte.byte),
    List.length stream < fuel ->
    exists chunks,
      List.concat chunks = stream /\
      Forall (fun c => 0 < List.length c <= Security.buffer_size) chunks /\
      Security.read_loop ssl fuel ctx stream =
      List.fold_left (SHA256_Update ssl) chunks ctx.
Proof.
  induction fuel as [|fuel IH]; intros ctx stream Hl; [lia|].
  cbn [Security.read_loop].
  destruct (firstn Security.buffer_size stream) as [|b chunk] eqn:E.
  - apply (firstn_nil_inv _ _ buffer_size_pos) in E. subst stream.
    exists []. repeat split. constructor.
  - assert (Hs : stream <> [])
      by (intros ->; rewrite firstn_nil in E; discriminate).
    assert (Hk : List.length (skipn Security.buffer_size stream)
                 < List.length stream).
    { rewrite length_skipn. pose proof buffer_size_pos.
      destruct stream; [congruence | simpl; lia]. }
    destruct (IH (SHA256_Update ssl ctx (b :: chunk))
                 (skipn Security.buffer_size stream)) as (cs & Ec & Hf & Er);
      [lia|].
    exists ((b :: chunk) :: cs). split; [| split].
    + cbn [List.concat]. rewrite Ec, <- E. apply firstn_skipn.
    + constructor; [| exact Hf]. rewrite <- E. split.
      * rewrite E. simpl. lia.
      * apply firstn_le_length.
    + cbn [List.fold_left]. exact Er.
Qed.

(** X29.  The hashing loop of [CalculateFileSHA256] feeds every byte of
    the file to the digest exactly once and in order, in chunks of 1 to
    8192 bytes; an empty file gets no update at all. *)
Theorem CalculateFileSHA256_hashes_whole_file
        (ssl : OpenSSL) (content : list Byte.byte) :
  exists chunks,
    List.concat chunks = content /\
    Forall (fun c => 0 < List.length c <= Security.buffer_size) chunks /\
    file_digest ssl content =
    Security.hex_digest
      (SHA256_Final ssl
         (List.fold_left (SHA256_Update ssl) chunks (SHA256_Init ssl))).
Proof.
  destruct (read_loop_chunks ssl (S (List.length content)) (SHA256_Init ssl)
              content (Nat.lt_succ_diag_r _)) as (cs & Ec & Hf & Er).
  exists cs. split; [exact Ec | split; [exact Hf|]].
  unfold file_digest. rewrite Er. reflexivity.
Qed.

Lemma mask_all_ones (r c : nat) : mask_all f_one r c (mat_ones r c).
Proof.
  intros y x Hy Hx. unfold mat_at, mat_ones. cbn [cols data].
  rewrite (nth_indep _ f_zero f_one) by (rewrite repeat_length; nia).
  apply nth_repeat.
Qed.

Lemma composite_all_ones (cv : OpenCV) (filter : background_filter_data)
      (input_frame output_frame : Mat Vec3b) (mask : Mat float) :
  mask_all f_one (rows input_frame) (cols input_frame) mask ->
  Filter.composite cv filter input_frame mask = Ok output_frame ->
  same_image output_frame input_frame.
Proof.
  intros Hm. unfold Filter.composite.
  assert (B : same_image
                (mat_fill (rows input_frame) (cols input_frame)
                   (fun y x =>
                      blend (mat_at black input_frame y x)
                            (Filter.bg_color (replacement_color filter))
                            (mat_at f_zero mask y x)))
                input_frame).
  { repeat split. intros y x Hy Hx. simpl in Hy, Hx.
    rewrite mat_at_fill by assumption.
    rewrite (Hm y x Hy Hx). apply blend_one. }
  destruct (replace_background filter).
  - intros E. inversion E; subst. exact B.
  - destruct (blur_background filter).
    + destruct (GaussianBlur_bgr cv input_frame _) as [blurred|];
        [| discriminate].
      intros E. inversion E; subst.
      repeat split. intros y x Hy Hx. simpl in Hy, Hx.
      rewrite mat_at_fill by assumption.
      rewrite (Hm y x Hy Hx). apply blend_one.
    + intros E. inversion E; subst. repeat split.
Qed.

(** X30.  In a build without the inference engine [RunInference] always
    succeeds with a mask of ones of the size of the frame, and compositing
    with that mask returns the image unchanged whenever it returns. *)
Theorem RunInference_without_engine
        (rt : Runtime) (cv : OpenCV) (mi : ModelInference)
        (filter : background_filter_data) (input_frame : Mat Vec3b)
        (t : float) :
  HAVE_ONNXRUNTIME rt = false ->
  Inference.RunInference rt mi input_frame t =
    Some (mat_ones (rows input_frame) (cols input_frame)) /\
  forall output_frame,
    Filter.composite cv filter input_frame
      (mat_ones (rows input_frame) (cols input_frame)) = Ok output_frame ->
    same_image output_frame input_frame.
Proof.
  intros Hh. split.
  - unfold Inference.RunInference. rewrite Hh. reflexivity.
  - intros out E.
    exact (composite_all_ones cv filter input_frame out _
             (mask_all_ones _ _) E).
Qed.

Lemma RunInference_without_engine_witness :
  Inference.RunInference (Demo.rt false false) Inference.new Demo.image f_half
  = Some (mat_ones (rows Demo.image) (cols Demo.image)) /\
  forall output_frame,
    Filter.composite Demo.cv Demo.filter Demo.image
      (mat_ones (rows Demo.image) (cols Demo.image)) = Ok output_frame ->
    same_image output_frame Demo.image.
Proof.
  apply (RunInference_without_engine (Demo.rt false false) Demo.cv
           Inference.new Demo.filter Demo.image f_half).
  reflexivity.
Defined.

(* ================================================================== *)
(** ** The properties above on the demo *)

Lemma CalculateFileSHA256_format_witness :
  exists s,
    Security.CalculateFileSHA256 Demo.fs Demo.ssl Demo.good [] =
    (Ok s, [] ++ [EvOpenRead Demo.good]) /\
    (fs_contents Demo.fs Demo.good = None -> s = "") /\
    (fs_contents Demo.fs Demo.good <> None ->
     String.length s = 64 /\ str_forall is_lower_hex s = true).
Proof.
  apply (CalculateFileSHA256_format Demo.fs Demo.ssl Demo.good []).
Defined.

Lemma VerifyModelIntegrity_true_iff_witness :
  fst (Security.VerifyModelIntegrity Demo.fs Demo.ssl Demo.good
         Demo.good_hash []) = Ok true.
Proof.
  apply (proj2 (VerifyModelIntegrity_true_iff Demo.fs Demo.ssl Demo.good
                  Demo.good_hash [])).
  split.
  - split; [reflexivity | split; [reflexivity|]].
    exists 4%N. split; [reflexivity | vm_compute; discriminate].
  - right. eexists. split; reflexivity.
Defined.

Lemma sigmoid_threshold_values_witness :
  Inference.sigmoid_threshold (Demo.rt true false) [f_one; f_half] 2 f_nan
  = List.repeat f_zero 2.
Proof.
  apply (proj2 (proj2 (sigmoid_threshold_values (Demo.rt true false)
                         [f_one; f_half] 2 f_nan))).
  reflexivity.
Defined.

Lemma LoadModel_outcome_witness :
  exists b mi',
    fst (Inference.LoadModel Demo.fs Demo.ssl (Demo.rt true false)
           Inference.new Demo.evil []) = Ok (b, mi') /\
    (b = false -> model_loaded_ mi' = model_loaded_ Inference.new) /\
    (b = false ->
     HAVE_ONNXRUNTIME (Demo.rt true false) = false \/
     fst (Security.authorize Demo.fs Demo.ssl Demo.evil
            (Inference.allowed_dirs (env_HOME (Demo.rt true false))) "" [])
     <> Ok true ->
     mi' = Inference.new) /\
    (b = true -> model_loaded_ mi' = true /\ has_session mi' = true).
Proof.
  apply (LoadModel_outcome Demo.fs Demo.ssl (Demo.rt true false)
           Inference.new Demo.evil []).
Defined.
